(** * visualize_deps: dependency trend charts from per-crate history logs

    A shallow embedding of [tools/deps/visualize_deps.py].  The script walks
    [dependency_logs/*_history.csv], loads every log with pandas, draws a
    two-line chart with pyplot and saves it as
    [dependency_trend_<crate>.png] in the working directory.

    The script is effectful from the first line to the last, so the model is
    a state-and-exception monad over an explicit [world]: the file system,
    the lines printed so far and pyplot's open figures.  An exception keeps
    the world reached when it was raised, as in Python: what was opened and
    not closed stays open. *)

From Stdlib Require Import ZArith Ascii String List Bool Lia.
From stdpp Require Import base option gmap strings list fin_maps.

Local Open Scope list_scope.
Local Open Scope stdpp_scope.

#[local] Arguments String.append : simpl nomatch.

(** ** Strings: the [str] and [os.path] operations the script calls *)

Module Str.

Definition slash : ascii := "/"%char.

(** [s.startswith(p)] *)
Definition starts_with (p s : string) : bool := String.prefix p s.

(** [s.endswith(suf)]: some tail of [s] is [suf]. *)
Fixpoint ends_with (suf s : string) : bool :=
  String.eqb s suf ||
  match s with
  | EmptyString => false
  | String _ s' => ends_with suf s'
  end.

(** [c in s] for a single character. *)
Fixpoint has_char (c : ascii) (s : string) : bool :=
  match s with
  | EmptyString => false
  | String d s' => Ascii.eqb d c || has_char c s'
  end.

(** [s.find(pat) != -1] *)
Fixpoint contains (pat s : string) : bool :=
  String.prefix pat s ||
  match s with
  | EmptyString => false
  | String _ s' => contains pat s'
  end.

(** [os.path.basename(p)] on POSIX: [p[p.rfind('/') + 1:]].  The scan
    keeps in [cur] the text that follows the last slash met so far. *)
Fixpoint basename_from (cur p : string) : string :=
  match p with
  | EmptyString => cur
  | String c p' =>
      if Ascii.eqb c slash then basename_from p' p' else basename_from cur p'
  end.

Definition basename (p : string) : string := basename_from p p.

(** [s.replace(old, new)] for a non-empty [old]: every occurrence of [old],
    found left to right without overlap, is replaced.  [skip] counts the
    characters of the occurrence under the cursor still to be dropped. *)
Fixpoint replace_from (old new : string) (skip : nat) (s : string) : string :=
  match s with
  | EmptyString => EmptyString
  | String c s' =>
      match skip with
      | S k => replace_from old new k s'
      | O =>
          if String.prefix old s
          then new +:+ replace_from old new (String.length old - 1) s'
          else String c (replace_from old new 0 s')
      end
  end.

Definition replace (old new s : string) : string := replace_from old new 0 s.

End Str.

(** ** Data: tables, figures, files *)

(** A pandas timestamp: nanoseconds since the epoch ([datetime64[ns]]). *)
Definition Timestamp : Type := Z.

(** A cell of a frame: the text of a CSV field, or the timestamp
    [pd.to_datetime] made of it. *)
Inductive cell : Type :=
| Text (s : string)
| Stamp (t : Timestamp).

(** What pandas makes of one field of a CSV file: a missing value, a number
    (or a truth value), or text. *)
Inductive kind : Type :=
| Missing
| Number
| Words.

(** [pd.DataFrame] as [read_csv] builds it: the header's column names and
    the data rows in file order. *)
Record DataFrame : Type := mkFrame {
  columns : list string;
  rows : list (list cell)
}.

(** One [plt.plot] call: a line through the points [(x_i, y_i)] in order. *)
Record Line : Type := mkLine {
  line_x : list cell;
  line_y : list cell;
  line_label : string;
  line_marker : string
}.

(** A pyplot figure with its single axes. *)
Record Figure : Type := mkFigure {
  fig_size : option (nat * nat);
  fig_lines : list Line;
  fig_title : string;
  fig_xlabel : string;
  fig_ylabel : string;
  fig_legend : bool;
  fig_grid : bool;
  fig_xtick_rotation : nat;
  fig_tight : bool
}.

(** What a regular file holds, as far as the script can tell. *)
Inductive content : Type :=
| Table (df : DataFrame)   (* text that [pd.read_csv] parses into [df] *)
| Unreadable               (* anything [pd.read_csv] rejects, a zero-byte file included *)
| Png (fig : Figure).      (* an image written by [savefig] *)

(** A directory carries its entry names in the order the OS lists them;
    the entries themselves live in the map under [dir/name]. *)
Inductive node : Type :=
| Dir (listing : list string)
| File (c : content).

(** Paths are relative to the working directory.  The model has no links:
    two paths never name the same file. *)
Record world : Type := mkWorld {
  fs : gmap string node;
  stdout : list string;
  figures : list Figure      (* pyplot's open figures, the current one first *)
}.

Inductive exn : Type :=
| FileNotFoundError (path : string)
| IsADirectoryError (path : string)
| ParserError (path : string)
| KeyError (key : string)
| DateParseError (value : string)
| TypeError
| OSError (path : string).

Inductive result (A : Type) : Type :=
| Ok (a : A)
| Raise (e : exn).
Arguments Ok {A} a.
Arguments Raise {A} e.

(** ** The monad: state passing, with exceptions that keep the state *)

Definition M (A : Type) : Type := world → result A * world.

#[global] Instance M_ret : MRet M := λ A a w, (Ok a, w).

#[global] Instance M_bind : MBind M := λ A B f m w,
  match m w with
  | (Ok a, w') => f a w'
  | (Raise e, w') => (Raise e, w')
  end.

#[global] Instance result_ret : MRet result := λ A a, Ok a.

#[global] Instance result_bind : MBind result := λ A B f r,
  match r with
  | Ok a => f a
  | Raise e => Raise e
  end.

(** A computation that reads and writes nothing: it returns or raises. *)
Definition lift {A : Type} (r : result A) : M A := λ w, (r, w).

Definition raise {A : Type} (e : exn) : M A := lift (Raise e).
Definition gets {A : Type} (f : world → A) : M A := λ w, (Ok (f w), w).
Definition modify (f : world → world) : M unit := λ w, (Ok tt, f w).

(** [for x in l: body(x)] *)
Fixpoint for_each {A : Type} (body : A → M unit) (l : list A) : M unit :=
  match l with
  | [] => mret tt
  | x :: l' => body x;; for_each body l'
  end.

Definition set_fs (f : gmap string node → gmap string node) (w : world) : world :=
  mkWorld (f (fs w)) (stdout w) (figures w).
Definition set_stdout (f : list string → list string) (w : world) : world :=
  mkWorld (fs w) (f (stdout w)) (figures w).
Definition set_figures (f : list Figure → list Figure) (w : world) : world :=
  mkWorld (fs w) (stdout w) (f (figures w)).

(** ** The library calls the script makes *)

(** [print(line)] *)
Definition print (line : string) : M unit :=
  modify (set_stdout (λ out, out ++ [line])).

(** [os.path.exists(path)] *)
Definition os_path_exists (path : string) : M bool :=
  gets (λ w, bool_decide (is_Some (fs w !! path))).

Module Glob.

(** [fnmatch(name, "*" + suffix)], together with glob's rule that a
    pattern not starting with a dot skips the hidden names. *)
Definition matches_star (suffix name : string) : bool :=
  negb (Str.starts_with "." name) && Str.ends_with suffix name.

(** [glob.glob(f"{dir}/*{suffix}")]: the matching names of [dir], in the
    order [dir] lists them, each joined to [dir]; nothing when [dir] is
    missing or is not a directory. *)
Definition found (dir suffix : string) (w : world) : list string :=
  match fs w !! dir with
  | Some (Dir names) =>
      map (λ name, dir +:+ "/" +:+ name)
          (List.filter (matches_star suffix) names)
  | _ => []
  end.

Definition glob_star (dir suffix : string) : M (list string) :=
  gets (found dir suffix).

End Glob.

Module Pd.

(** [df.empty]: one of the two axes has length zero. *)
Definition empty (df : DataFrame) : bool :=
  (length (columns df) =? 0)%nat || (length (rows df) =? 0)%nat.

Fixpoint column_index (c : string) (cols : list string) : option nat :=
  match cols with
  | [] => None
  | c' :: cols' =>
      if String.eqb c' c then Some 0%nat
      else S <$> column_index c cols'
  end.

(** pandas' missing value, which is also what an empty field reads as.
    A row that stops short of the header stands for the same row filled
    up with missing values. *)
Definition NaN : cell := Text "".

Definition get_cell (i : nat) (r : list cell) : cell := nth i r NaN.

Definition set_cell (i : nat) (v : cell) (r : list cell) : list cell :=
  <[i := v]> (r ++ replicate (S i - length r) NaN).

(** The series under column number [i], top to bottom. *)
Definition series (i : nat) (df : DataFrame) : list cell :=
  map (get_cell i) (rows df).

Definition column (df : DataFrame) (c : string) : result (list cell) :=
  match column_index c (columns df) with
  | Some i => Ok (series i df)
  | None => Raise (KeyError c)
  end.

(** [df[c]] *)
Definition getitem (df : DataFrame) (c : string) : M (list cell) :=
  lift (column df c).

Fixpoint set_series (i : nat) (rs : list (list cell)) (vals : list cell)
  : list (list cell) :=
  match rs, vals with
  | r :: rs', v :: vals' => set_cell i v r :: set_series i rs' vals'
  | _, _ => rs
  end.

(** [df[c] = vals]: an existing column is overwritten in place, a new one
    is appended on the right. *)
Definition setitem (df : DataFrame) (c : string) (vals : list cell) : DataFrame :=
  match column_index c (columns df) with
  | Some i => mkFrame (columns df) (set_series i (rows df) vals)
  | None =>
      mkFrame (columns df ++ [c])
              (zip_with (λ r v, r ++ [v]) (rows df) vals)
  end.

(** [pd.read_csv(path)] *)
Definition read_csv (path : string) : M DataFrame :=
  λ w, match fs w !! path with
       | Some (File (Table df)) => (Ok df, w)
       | Some (File _) => (Raise (ParserError path), w)
       | Some (Dir _) => (Raise (IsADirectoryError path), w)
       | None => (Raise (FileNotFoundError path), w)
       end.

Section to_datetime.

(** How pandas reads a field of a column as a date is taken as given.  The
    column comes first: pandas settles on one format for the whole column,
    from its first fields, and reads every field of it in that format. *)
Variable parse_date : list cell → string → option Timestamp.

Definition stamp (col : list cell) (c : cell) : result cell :=
  match c with
  | Stamp t => Ok (Stamp t)
  | Text s =>
      match parse_date col s with
      | Some t => Ok (Stamp t)
      | None => Raise (DateParseError s)
      end
  end.

(** The fields [s] of the column [col], converted top to bottom. *)
Fixpoint stamps_of (col s : list cell) : result (list cell) :=
  match s with
  | [] => Ok []
  | c :: s' =>
      t ← stamp col c;
      ts ← stamps_of col s';
      mret (t :: ts)
  end.

Definition stamps (col : list cell) : result (list cell) := stamps_of col col.

(** [pd.to_datetime(series)]: every field in the format of the column, top
    to bottom; the first field that is no date in it raises. *)
Definition to_datetime (s : list cell) : M (list cell) :=
  lift (stamps s).

End to_datetime.

Section kinds.

(** How pandas reads one field that is not empty is taken as given. *)
Variable field_kind : string → kind.

(** The kind of a cell; the empty field is the missing value. *)
Definition kind_of (c : cell) : kind :=
  match c with
  | Text s => if String.eqb s "" then Missing else field_kind s
  | Stamp _ => Number
  end.

Definition is_words (c : cell) : bool :=
  match kind_of c with Words => true | _ => false end.

Definition is_missing (c : cell) : bool :=
  match kind_of c with Missing => true | _ => false end.

(** A series that reaches pyplot as text with holes in it: one field at
    least is text, so the column is one of strings, and one at least is
    missing, which pandas fills with a float. *)
Definition mixed (s : list cell) : bool :=
  existsb is_words s && existsb is_missing s.

End kinds.

End Pd.

Module Plt.

Definition blank (size : option (nat * nat)) : Figure :=
  mkFigure size [] "" "" "" false false 0 false.

(** [plt.gcf()]: the current figure, made on the spot if none is open. *)
Definition gcf : M Figure :=
  λ w, match figures w with
       | cur :: _ => (Ok cur, w)
       | [] => (Ok (blank None), set_figures (λ _, [blank None]) w)
       end.

(** Run a drawing call on the current figure. *)
Definition draw (f : Figure → Figure) : M unit :=
  cur ← gcf;
  modify (set_figures (λ figs, f cur :: tail figs)).

(** [plt.figure(figsize=(w, h))] *)
Definition figure (w h : nat) : M unit :=
  modify (set_figures (λ figs, blank (Some (w, h)) :: figs)).

(** [plt.plot(x, y, label=..., marker=...)].  Values that are text go on a
    category axis, which takes strings only: text with a missing value among
    it raises [TypeError], and no line is drawn. *)
Definition plot (field_kind : string → kind) (x y : list cell)
    (label marker : string) : M unit :=
  if Pd.mixed field_kind y then raise TypeError
  else
    draw (λ g, mkFigure (fig_size g) (fig_lines g ++ [mkLine x y label marker])
                 (fig_title g) (fig_xlabel g) (fig_ylabel g) (fig_legend g)
                 (fig_grid g) (fig_xtick_rotation g) (fig_tight g)).

Definition title (t : string) : M unit :=
  draw (λ g, mkFigure (fig_size g) (fig_lines g) t (fig_xlabel g)
               (fig_ylabel g) (fig_legend g) (fig_grid g)
               (fig_xtick_rotation g) (fig_tight g)).

Definition xlabel (t : string) : M unit :=
  draw (λ g, mkFigure (fig_size g) (fig_lines g) (fig_title g) t
               (fig_ylabel g) (fig_legend g) (fig_grid g)
               (fig_xtick_rotation g) (fig_tight g)).

Definition ylabel (t : string) : M unit :=
  draw (λ g, mkFigure (fig_size g) (fig_lines g) (fig_title g)
               (fig_xlabel g) t (fig_legend g) (fig_grid g)
               (fig_xtick_rotation g) (fig_tight g)).

Definition legend : M unit :=
  draw (λ g, mkFigure (fig_size g) (fig_lines g) (fig_title g)
               (fig_xlabel g) (fig_ylabel g) true (fig_grid g)
               (fig_xtick_rotation g) (fig_tight g)).

Definition grid (on : bool) : M unit :=
  draw (λ g, mkFigure (fig_size g) (fig_lines g) (fig_title g)
               (fig_xlabel g) (fig_ylabel g) (fig_legend g) on
               (fig_xtick_rotation g) (fig_tight g)).

(** [plt.xticks(rotation=deg)] *)
Definition xticks (deg : nat) : M unit :=
  draw (λ g, mkFigure (fig_size g) (fig_lines g) (fig_title g)
               (fig_xlabel g) (fig_ylabel g) (fig_legend g) (fig_grid g)
               deg (fig_tight g)).

Definition tight_layout : M unit :=
  draw (λ g, mkFigure (fig_size g) (fig_lines g) (fig_title g)
               (fig_xlabel g) (fig_ylabel g) (fig_legend g) (fig_grid g)
               (fig_xtick_rotation g) true).

(** The longest file name the file system takes, in bytes. *)
Definition name_max : nat := 255.

(** What stands against writing a file at [path]: a directory in that
    place, or a name longer than the file system takes.  The working
    directory is taken to be writable and to have room. *)
Definition save_error (m : gmap string node) (path : string) : option exn :=
  match m !! path with
  | Some (Dir _) => Some (IsADirectoryError path)
  | _ =>
      if (name_max <? String.length (Str.basename path))%nat
      then Some (OSError path)
      else None
  end.

(** [plt.savefig(path)]: the current figure is written to [path], over
    whatever file was there. *)
Definition savefig (path : string) : M unit :=
  cur ← gcf;
  ((λ w, match save_error (fs w) path with
         | Some e => (Raise e, w)
         | None => (Ok tt, set_fs (<[path := File (Png cur)]>) w)
         end) : M unit).

(** [plt.close()]: the current figure, if there is one, is closed. *)
Definition close : M unit :=
  modify (set_figures tail).

End Plt.

(** ** The script *)

(** Line 17: the crate a log is about, from the log's file name. *)
Definition crate_name (log_file : string) : string :=
  Str.replace "_history.csv" "" (Str.basename log_file).

(** Line 33: where the chart of a crate goes. *)
Definition output_file (crate : string) : string :=
  "dependency_trend_" +:+ crate +:+ ".png".

Section Script.

Variable parse_date : list cell → string → option Timestamp.
Variable field_kind : string → kind.

Definition plot_crate_history (log_file : string) : M unit :=
  found ← os_path_exists log_file;
  if negb found then
    print ("No history file found: " +:+ log_file)
  else
    df ← Pd.read_csv log_file;
    if Pd.empty df then
      print ("No data in " +:+ log_file)
    else
      let crate_name := crate_name log_file in
      date ← Pd.getitem df "Date";
      date ← Pd.to_datetime parse_date date;
      let df := Pd.setitem df "Date" date in
      Plt.figure 12 6;;
      x ← Pd.getitem df "Date";
      y ← Pd.getitem df "Direct Dependencies";
      Plt.plot field_kind x y "Direct" "o";;
      x ← Pd.getitem df "Date";
      y ← Pd.getitem df "Indirect Dependencies";
      Plt.plot field_kind x y "Indirect" "o";;
      Plt.title (crate_name +:+ " Dependencies Over Time");;
      Plt.xlabel "Date";;
      Plt.ylabel "Number of Dependencies";;
      Plt.legend;;
      Plt.grid true;;
      Plt.xticks 45;;
      Plt.tight_layout;;
      let output_file := output_file crate_name in
      Plt.savefig output_file;;
      print ("Generated " +:+ output_file);;
      Plt.close.

Definition main : M unit :=
  let log_dir := "dependency_logs" in
  found ← os_path_exists log_dir;
  if negb found then
    print "No dependency logs found. Run track_deps.sh first."
  else
    log_files ← Glob.glob_star log_dir "_history.csv";
    if bool_decide (log_files = []) then
      print "No history files found in dependency_logs/"
    else
      for_each plot_crate_history log_files.

End Script.

(** ** Readers to run the script with: ISO dates, counts in digits *)

Module Iso.

Definition digit (c : ascii) : option nat :=
  let n := nat_of_ascii c in
  if (48 <=? n)%nat && (n <=? 57)%nat then Some (n - 48)%nat else None.

Fixpoint number (acc : nat) (s : string) : option nat :=
  match s with
  | EmptyString => Some acc
  | String c s' => d ← digit c; number (10 * acc + d)%nat s'
  end.

Definition leap (y : nat) : bool :=
  ((y mod 4 =? 0) && negb (y mod 100 =? 0) || (y mod 400 =? 0))%nat.

Definition days_in_month (y m : nat) : nat :=
  match m with
  | 2 => if leap y then 29 else 28
  | 4 | 6 | 9 | 11 => 30
  | _ => 31
  end%nat.

(** Days from 1970-01-01 to the given civil date. *)
Definition days_from_civil (y m d : Z) : Z :=
  let y' := (if m <=? 2 then y - 1 else y)%Z in
  let era := (y' / 400)%Z in
  let yoe := (y' - era * 400)%Z in
  let doy := ((153 * (if 2 <? m then m - 3 else m + 9) + 2) / 5 + d - 1)%Z in
  let doe := (yoe * 365 + yoe / 4 - yoe / 100 + doy)%Z in
  (era * 146097 + doe - 719468)%Z.

(** pandas' [NaT], the timestamp of a missing value. *)
Definition NaT : Timestamp := (- 2 ^ 63)%Z.

Definition read (s : string) : option Timestamp :=
  if String.eqb s "" then Some NaT
  else if negb ((String.length s =? 10)%nat
           && bool_decide (String.get 4 s = Some "-"%char)
           && bool_decide (String.get 7 s = Some "-"%char))
  then None
  else
    y ← number 0 (substring 0 4 s);
    m ← number 0 (substring 5 2 s);
    d ← number 0 (substring 8 2 s);
    if ((1 <=? m) && (m <=? 12) && (1 <=? d) && (d <=? days_in_month y m))%nat
    then Some (days_from_civil (Z.of_nat y) (Z.of_nat m) (Z.of_nat d)
               * 86400 * 1000000000)%Z
    else None.

(** A column of ISO dates: every field is read as one, whatever the rest
    of the column holds. *)
Definition parse_date (col : list cell) (s : string) : option Timestamp :=
  read s.

(** Fields of digits are numbers, the other fields are text. *)
Fixpoint all_digits (s : string) : bool :=
  match s with
  | EmptyString => true
  | String c s' => bool_decide (is_Some (digit c)) && all_digits s'
  end.

Definition field_kind (s : string) : kind :=
  if all_digits s then Number else Words.

End Iso.

(** ** Sample worlds *)

Module Sample.

Definition header : list string :=
  ["Date"; "Direct Dependencies"; "Indirect Dependencies"].

Definition row (date direct indirect : string) : list cell :=
  [Text date; Text direct; Text indirect].

Definition world_of (files : list (string * node)) : world :=
  mkWorld (list_to_map files) [] [].

(** [dependency_logs/foo_history.csv] with two weekly rows. *)
Definition foo_table : DataFrame :=
  mkFrame header [row "2024-01-01" "2" "5"; row "2024-01-08" "3" "7"].

Definition foo_log : string := "dependency_logs/foo_history.csv".

Definition foo_world : world :=
  world_of [("dependency_logs", Dir ["foo_history.csv"]);
            (foo_log, File (Table foo_table))].


(** A log whose stem holds the suffix once more. *)
Definition twice_log : string := "dependency_logs/x_history.csv_history.csv".

Definition twice_world : world :=
  world_of [("dependency_logs", Dir ["x_history.csv_history.csv"]);
            (twice_log, File (Table foo_table))].

(** A log with the wrong header and no row under it. *)
Definition bare_log : string := "dependency_logs/bare_history.csv".

Definition bare_world : world :=
  world_of [("dependency_logs", Dir ["bare_history.csv"]);
            (bare_log, File (Table (mkFrame ["Crate"; "Count"] [])))].

(** A log without the column of indirect dependencies. *)
Definition short_log : string := "dependency_logs/short_history.csv".

Definition short_table : DataFrame :=
  mkFrame ["Date"; "Direct Dependencies"] [[Text "2024-01-01"; Text "2"]].

Definition short_world : world :=
  world_of [("dependency_logs", Dir ["short_history.csv"; "foo_history.csv"]);
            (short_log, File (Table short_table));
            (foo_log, File (Table foo_table))].



(** No log directory; a log directory with nothing to chart in it. *)
Definition no_logs_world : world := world_of [].

Definition notes_world : world :=
  world_of [("dependency_logs", Dir ["notes.txt"; ".old_history.csv"]);
            ("dependency_logs/notes.txt", File Unreadable);
            ("dependency_logs/.old_history.csv", File (Table foo_table))].

(** A header-only log, listed ahead of the log of foo. *)
Definition empty_log : string := "dependency_logs/empty_history.csv".

Definition empty_then_foo_world : world :=
  world_of [("dependency_logs", Dir ["empty_history.csv"; "foo_history.csv"]);
            (empty_log, File (Table (mkFrame header [])));
            (foo_log, File (Table foo_table))].

(** The logs of a and b, one row each, listed in the order [names]. *)
Definition a_log : string := "dependency_logs/a_history.csv".
Definition b_log : string := "dependency_logs/b_history.csv".

Definition one_row (date direct indirect : string) : DataFrame :=
  mkFrame header [row date direct indirect].

Definition two_logs_world (names : list string) (ta tb : DataFrame) : world :=
  world_of [("dependency_logs", Dir names);
            (a_log, File (Table ta));
            (b_log, File (Table tb))].

End Sample.

Module Cases.

(** A name listed by [dependency_logs] with no file behind it, ahead of
    the log of foo. *)
Definition gone_log : string := "dependency_logs/gone_history.csv".

Definition gone_then_foo_world : world :=
  Sample.world_of
    [("dependency_logs", Dir ["gone_history.csv"; "foo_history.csv"]);
     (Sample.foo_log, File (Table Sample.foo_table))].

(** The world of foo in a process that has printed and has a figure open. *)
Definition foo_world_later : world :=
  mkWorld (fs Sample.foo_world) ["earlier"] [Plt.blank None].

(** The logs of a and b, listed one way and the other. *)
Definition ab_world : world :=
  Sample.two_logs_world ["a_history.csv"; "b_history.csv"]
    (Sample.one_row "2024-01-01" "1" "4") (Sample.one_row "2024-01-08" "2" "6").

Definition ba_world : world :=
  Sample.two_logs_world ["b_history.csv"; "a_history.csv"]
    (Sample.one_row "2024-01-01" "1" "4") (Sample.one_row "2024-01-08" "2" "6").

(** A log whose second date is in another format than its first, ahead
    of one that is no date at all. *)
Definition formats_log : string := "dependency_logs/formats_history.csv".

Definition formats_table : DataFrame :=
  mkFrame Sample.header
          [Sample.row "2024-01-01" "2" "5";
           Sample.row "01/02/2024" "3" "7";
           Sample.row "soon" "4" "9"].

Definition formats_world : world :=
  Sample.world_of
    [("dependency_logs", Dir ["formats_history.csv"]);
     (formats_log, File (Table formats_table))].




End Cases.


(** ** What a run leaves behind *)

(** The chart the script draws of a crate, from the three series. *)
Definition chart (crate : string) (dates direct indirect : list cell) : Figure :=
  mkFigure (Some (12, 6)%nat)
           [mkLine dates direct "Direct" "o";
            mkLine dates indirect "Indirect" "o"]
           (crate +:+ " Dependencies Over Time")
           "Date" "Number of Dependencies" true true 45 true.

(** The world after a line has been printed. *)
Definition printed (line : string) (w : world) : world :=
  set_stdout (λ out, out ++ [line]) w.

(** The world with one more open figure. *)
Definition opened (g : Figure) (w : world) : world :=
  set_figures (λ figs, g :: figs) w.

(** A path of the form [dependency_trend_<crate>.png], directly in the
    working directory. *)
Definition is_trend_image (path : string) : Prop :=
  ∃ crate, path = output_file crate ∧ Str.has_char Str.slash crate = false.

(** The images a world holds, by path. *)
Definition images (w : world) : gmap string Figure :=
  omap (λ n, match n with File (Png g) => Some g | _ => None end) (fs w).

(** From [w] to [w'] the file system changed in trend images only: every
    path holds what it held, or is such a path and now holds an image. *)
Definition only_images_written (w w' : world) : Prop :=
  ∀ path,
    fs w' !! path = fs w !! path
    ∨ (is_trend_image path ∧ ∃ g, fs w' !! path = Some (File (Png g))).

Module Spec.

(** [s] without the suffix [suf], taken off the end only. *)
Fixpoint remove_suffix (suf s : string) : string :=
  if String.eqb s suf then ""
  else match s with
       | EmptyString => ""
       | String c s' => String c (remove_suffix suf s')
       end.

(** The entity of a log as the specification words it: the file name
    with the suffix [_history.csv] stripped. *)
Definition entity (log_file : string) : string :=
  remove_suffix "_history.csv" (Str.basename log_file).

End Spec.

(** ** A run, seen from the file system *)

(** What a call does to the file system: nothing, one image written, or
    nothing and an exception. *)
Inductive outcome : Type :=
| Pass
| Write (path : string) (g : Figure)
| Fail (e : exn).

Definition is_dir (n : option node) : bool :=
  match n with
  | Some (Dir _) => true
  | _ => false
  end.

(** The file system after an outcome. *)
Definition put (o : outcome) (m : gmap string node) : gmap string node :=
  match o with
  | Write path g => <[path := File (Png g)]> m
  | _ => m
  end.

(** The file system after a sequence of writes, the first one first. *)
Fixpoint put_all (ws : list (string * Figure)) (m : gmap string node)
  : gmap string node :=
  match ws with
  | [] => m
  | (path, g) :: ws' => put_all ws' (<[path := File (Png g)]> m)
  end.

Section Outcome.

Variable parse_date : list cell → string → option Timestamp.
Variable field_kind : string → kind.

(** The outcome of [plot_crate_history log_file] on the files [m]. *)
Definition outcome_of (log_file : string) (m : gmap string node) : outcome :=
  match m !! log_file with
  | None => Pass
  | Some (Dir _) => Fail (IsADirectoryError log_file)
  | Some (File (Table df)) =>
      if Pd.empty df then Pass
      else
        match Pd.column df "Date" with
        | Raise e => Fail e
        | Ok date =>
        match Pd.stamps parse_date date with
        | Raise e => Fail e
        | Ok dates =>
        match Pd.column df "Direct Dependencies" with
        | Raise e => Fail e
        | Ok direct =>
        if Pd.mixed field_kind direct then Fail TypeError
        else
        match Pd.column df "Indirect Dependencies" with
        | Raise e => Fail e
        | Ok indirect =>
        if Pd.mixed field_kind indirect then Fail TypeError
        else
          let crate := crate_name log_file in
          match Plt.save_error m (output_file crate) with
          | Some e => Fail e
          | None => Write (output_file crate) (chart crate dates direct indirect)
          end
        end end end end
  | Some (File _) => Fail (ParserError log_file)
  end.

(** The loop over [l], outcome by outcome: how it ends and the files it
    leaves. *)
Fixpoint run_on (l : list string) (m : gmap string node)
  : result unit * gmap string node :=
  match l with
  | [] => (Ok tt, m)
  | f :: l' =>
      match outcome_of f m with
      | Fail e => (Raise e, m)
      | o => run_on l' (put o m)
      end
  end.

(** The images the loop over [l] writes, in the order it writes them. *)
Fixpoint writes (l : list string) (m : gmap string node)
  : list (string * Figure) :=
  match l with
  | [] => []
  | f :: l' =>
      match outcome_of f m with
      | Fail _ => []
      | Pass => writes l' m
      | Write path g => (path, g) :: writes l' (<[path := File (Png g)]> m)
      end
  end.

(** The files [l] whose call, on the files [m], writes an image. *)
Definition write_of (m : gmap string node) (f : string)
  : option (string * Figure) :=
  match outcome_of f m with
  | Write path g => Some (path, g)
  | _ => None
  end.

End Outcome.

(** Two file systems a call on a file of [l] cannot tell apart: the file
    reads the same in both, and its chart is blocked in both or in none. *)
Definition alike (l : list string) (m m' : gmap string node) : Prop :=
  ∀ f, f ∈ l →
       m' !! f = m !! f
       ∧ is_dir (m' !! output_file (crate_name f))
         = is_dir (m !! output_file (crate_name f)).

(** * Properties *)

(** ** Strings *)

Module StrFacts.
Import Str.

Lemma prefix_cons a p b s :
  String.prefix (String a p) (String b s)
  = if ascii_dec a b then String.prefix p s else false.
Proof. reflexivity. Qed.

Lemma append_cons c a b : String c a +:+ b = String c (a +:+ b).
Proof. reflexivity. Qed.

(** An occurrence of [_history.csv] cannot start inside the stem and run
    into the suffix: the pattern has a single underscore, in front. *)
Lemma history_no_straddle c s :
  String.prefix "_history.csv" (String c s) = false →
  String.prefix "_history.csv" (String c s +:+ "_history.csv") = false.
Proof.
  rewrite append_cons, !prefix_cons.
  destruct (ascii_dec _ c) as [<-|]; [|done].
  do 11 (destruct s as [|? s]; [intros _; vm_compute; reflexivity|];
         rewrite append_cons, !prefix_cons;
         destruct (ascii_dec _ _) as [<-|]; [|done]).
  by destruct s.
Qed.

#[local] Arguments String.prefix : simpl never.

Lemma has_char_app c a b :
  has_char c (a +:+ b) = has_char c a || has_char c b.
Proof.
  induction a as [|d a IH]; simpl; [done|].
  by rewrite IH, orb_assoc.
Qed.

Lemma append_assoc (a b c : string) : (a +:+ b) +:+ c = a +:+ (b +:+ c).
Proof. induction a as [|d a IH]; simpl; [done|]. by rewrite IH. Qed.

Lemma append_nil_r (a : string) : a +:+ "" = a.
Proof. induction a as [|d a IH]; simpl; [done|]. by rewrite IH. Qed.

(** The scan never hands back text with a slash in it. *)
Lemma basename_from_no_slash p : ∀ cur pre,
  cur = pre +:+ p → has_char slash pre = false →
  has_char slash (basename_from cur p) = false.
Proof.
  induction p as [|c p IH]; simpl; intros cur pre -> Hpre.
  - by rewrite append_nil_r.
  - destruct (Ascii.eqb c slash) eqn:Hc.
    + by apply (IH p "").
    + apply (IH _ (pre +:+ String c "")).
      * by rewrite append_assoc.
      * rewrite has_char_app, Hpre. simpl. by rewrite Hc.
Qed.

Lemma basename_no_slash p : has_char slash (basename p) = false.
Proof. by apply (basename_from_no_slash p p ""). Qed.

Lemma basename_from_plain p : ∀ cur,
  has_char slash p = false → basename_from cur p = cur.
Proof.
  induction p as [|c p IH]; simpl; intros cur H; [done|].
  apply orb_false_elim in H as [-> H]. by apply IH.
Qed.

(** [basename] undoes the join glob made. *)
Lemma basename_join dir name :
  has_char slash name = false →
  basename (dir +:+ "/" +:+ name) = name.
Proof.
  intros Hname. unfold basename.
  generalize (dir +:+ "/" +:+ name) at 1. induction dir as [|c dir IH]; intros cur.
  - simpl. by apply basename_from_plain.
  - simpl. destruct (Ascii.eqb c slash); apply IH.
Qed.

Lemma replace_from_keeps_out c old s : ∀ k,
  has_char c s = false → has_char c (replace_from old "" k s) = false.
Proof.
  induction s as [|d s IH]; simpl; intros k H; [done|].
  apply orb_false_elim in H as [Hd H].
  destruct k; [|by apply IH].
  destruct (String.prefix old (String d s)); simpl.
  - by apply IH.
  - by rewrite Hd, IH.
Qed.

(** Where the stem holds no [_history.csv], [replace] takes off the
    suffix and nothing else. *)
Lemma replace_history_suffix stem :
  contains "_history.csv" stem = false →
  replace "_history.csv" "" (stem +:+ "_history.csv") = stem.
Proof.
  unfold replace. induction stem as [|c stem IH]; [done|].
  simpl. intros [Hpre Hrest]%orb_false_elim.
  apply history_no_straddle in Hpre. simpl in Hpre. rewrite Hpre.
  by rewrite IH.
Qed.

Lemma crate_name_join dir stem :
  has_char slash stem = false →
  contains "_history.csv" stem = false →
  crate_name (dir +:+ "/" +:+ stem +:+ "_history.csv") = stem.
Proof.
  intros Hslash Hin. unfold crate_name.
  rewrite basename_join; [by apply replace_history_suffix|].
  by rewrite has_char_app, Hslash.
Qed.

Lemma length_append (a b : string) :
  String.length (a +:+ b) = (String.length a + String.length b)%nat.
Proof. induction a as [|c a IH]; simpl; [done|]. by rewrite IH. Qed.

Lemma remove_suffix_unfold suf s :
  Spec.remove_suffix suf s
  = if String.eqb s suf then ""
    else match s with
         | EmptyString => ""
         | String c s' => String c (Spec.remove_suffix suf s')
         end.
Proof. by destruct s. Qed.

Lemma remove_suffix_append suf stem :
  Spec.remove_suffix suf (stem +:+ suf) = stem.
Proof.
  induction stem as [|c stem IH].
  - change ("" +:+ suf) with suf. rewrite remove_suffix_unfold.
    by rewrite String.eqb_refl.
  - rewrite append_cons, remove_suffix_unfold, IH.
    destruct (String.eqb_spec (String c (stem +:+ suf)) suf) as [Heq|]; [|done].
    apply (f_equal String.length) in Heq. simpl in Heq.
    rewrite length_append in Heq. lia.
Qed.

(** Where the stem holds no [_history.csv], the crate the script derives
    is the entity of the specification. *)
Lemma crate_name_is_entity dir stem :
  has_char slash stem = false →
  contains "_history.csv" stem = false →
  crate_name (dir +:+ "/" +:+ stem +:+ "_history.csv")
  = Spec.entity (dir +:+ "/" +:+ stem +:+ "_history.csv").
Proof.
  intros Hslash Hin. rewrite crate_name_join by done.
  unfold Spec.entity. rewrite basename_join.
  - by rewrite remove_suffix_append.
  - by rewrite has_char_app, Hslash.
Qed.

Lemma crate_name_no_slash log_file :
  has_char slash (crate_name log_file) = false.
Proof. apply replace_from_keeps_out, basename_no_slash. Qed.

End StrFacts.

(** ** Frames *)

Module PdFacts.
Import Pd.

Lemma get_set_cell i v r : get_cell i (set_cell i v r) = v.
Proof.
  unfold get_cell, set_cell. rewrite nth_lookup, list_lookup_insert_eq; [done|].
  rewrite length_app, length_replicate. lia.
Qed.

Lemma get_set_cell_ne i j v r :
  i ≠ j → get_cell j (set_cell i v r) = get_cell j r.
Proof.
  intros Hij. unfold get_cell, set_cell.
  rewrite !nth_lookup, list_lookup_insert_ne by done.
  destruct (decide (j < length r)) as [Hj|Hj].
  - by rewrite lookup_app_l.
  - rewrite lookup_app_r, (lookup_ge_None_2 r j) by lia.
    destruct (replicate _ _ !! _) as [c|] eqn:Hc; [|done].
    by apply lookup_replicate in Hc as [-> _].
Qed.

Lemma series_set_series i rs vals :
  length vals = length rs → map (get_cell i) (set_series i rs vals) = vals.
Proof.
  revert vals. induction rs as [|r rs IH]; intros [|v vals] Hlen;
    simplify_eq/=; [done|].
  by rewrite get_set_cell, IH.
Qed.

Lemma series_set_series_ne i j rs vals :
  i ≠ j → map (get_cell j) (set_series i rs vals) = map (get_cell j) rs.
Proof.
  intros Hij. revert vals. induction rs as [|r rs IH]; intros [|v vals];
    simpl; [done..|].
  by rewrite get_set_cell_ne, IH.
Qed.

Lemma column_index_lookup c cols i :
  column_index c cols = Some i → cols !! i = Some c.
Proof.
  revert i. induction cols as [|c' cols IH]; intros i; simpl; [done|].
  destruct (String.eqb_spec c' c) as [->|Hne].
  - by intros [= <-].
  - destruct (column_index c cols); intros [= <-]; simpl. by apply IH.
Qed.

Lemma column_index_None c cols :
  column_index c cols = None ↔ c ∉ cols.
Proof.
  induction cols as [|c' cols IH]; simpl.
  - split; [intros _; apply not_elem_of_nil | done].
  - rewrite not_elem_of_cons. destruct (String.eqb_spec c' c) as [->|Hne].
    + split; [done | by intros [? _]].
    + destruct (column_index c cols); simpl.
      * split; [done | intros [_ H]; by apply IH in H].
      * split; [intros _; split; [done | by apply IH] | done].
Qed.


Lemma column_missing df c : c ∉ columns df → column df c = Raise (KeyError c).
Proof. intros H%column_index_None. unfold column. by rewrite H. Qed.

Lemma column_length df c s : column df c = Ok s → length s = length (rows df).
Proof.
  unfold column, series. destruct (column_index _ _); intros [= <-].
  by rewrite length_map.
Qed.

(** Overwriting a column with a series of the frame's height: that column
    reads back as the series, every other column as before. *)
Lemma column_setitem df c old vals :
  column df c = Ok old → length vals = length (rows df) →
  column (setitem df c vals) c = Ok vals.
Proof.
  unfold column, setitem, series. destruct (column_index c (columns df)) as [i|] eqn:Hi; [|done].
  intros _ Hlen. simpl. rewrite Hi. simpl. by rewrite series_set_series.
Qed.

Lemma column_setitem_ne df c c' old vals :
  column df c = Ok old → c ≠ c' →
  column (setitem df c vals) c' = column df c'.
Proof.
  unfold column, setitem, series. destruct (column_index c (columns df)) as [i|] eqn:Hi; [|done].
  intros _ Hne. simpl. destruct (column_index c' (columns df)) as [j|] eqn:Hj; [|done].
  simpl. rewrite series_set_series_ne; [done|].
  intros ->. apply column_index_lookup in Hi, Hj. congruence.
Qed.

Section stamps.
Variable parse_date : list cell → string → option Timestamp.

Lemma stamps_of_Forall2 col s xs :
  stamps_of parse_date col s = Ok xs →
  Forall2 (λ c x, stamp parse_date col c = Ok x) s xs.
Proof.
  revert xs. induction s as [|c s IH]; simpl; intros xs.
  - intros [= <-]. constructor.
  - destruct (stamp parse_date col c) as [x|] eqn:Hx; simpl; [|done].
    destruct (stamps_of parse_date col s) as [xs'|]; simpl; [|done].
    intros [= <-]. constructor; auto.
Qed.

Lemma stamps_Forall2 col xs :
  stamps parse_date col = Ok xs →
  Forall2 (λ c x, stamp parse_date col c = Ok x) col xs.
Proof. apply stamps_of_Forall2. Qed.

Lemma stamps_length col xs :
  stamps parse_date col = Ok xs → length xs = length col.
Proof. intros H%stamps_Forall2. symmetry. by eapply Forall2_length. Qed.



Lemma stamps_of_unparsable col s f :
  Text f ∈ s → parse_date col f = None →
  ∃ e, stamps_of parse_date col s = Raise e.
Proof.
  intros Hin Hf. induction s as [|c s IH]; [by apply elem_of_nil in Hin|].
  apply elem_of_cons in Hin as [<-|Hin]; simpl.
  - rewrite Hf. by eexists.
  - destruct (stamp parse_date col c); simpl; [|by eexists].
    destruct (IH Hin) as [e ->]. by eexists.
Qed.

(** One field that is no date in its column and the conversion raises. *)
Lemma stamps_unparsable col f :
  Text f ∈ col → parse_date col f = None →
  ∃ e, stamps parse_date col = Raise e.
Proof. apply stamps_of_unparsable. Qed.

End stamps.

End PdFacts.

(** ** The script, path by path *)

Section ScriptFacts.

Variable parse_date : list cell → string → option Timestamp.
Variable field_kind : string → kind.

#[local] Arguments crate_name : simpl never.
#[local] Arguments output_file : simpl never.
#[local] Arguments String.append : simpl never.

(** Line 8: a path that names nothing is reported and left. *)
Lemma plot_missing log_file w :
  fs w !! log_file = None →
  plot_crate_history parse_date field_kind log_file w
  = (Ok tt, printed ("No history file found: " +:+ log_file) w).
Proof.
  intros H. unfold plot_crate_history, mbind, M_bind, os_path_exists, gets.
  rewrite H. by rewrite bool_decide_eq_false_2 by (by intros [? ?]).
Qed.

(** Line 13: a frame without rows (or without columns) is reported and
    left. *)
Lemma plot_empty log_file w df :
  fs w !! log_file = Some (File (Table df)) → Pd.empty df = true →
  plot_crate_history parse_date field_kind log_file w
  = (Ok tt, printed ("No data in " +:+ log_file) w).
Proof.
  intros H He. unfold plot_crate_history, mbind, M_bind, os_path_exists, gets.
  rewrite H, bool_decide_eq_true_2 by eauto. simpl.
  unfold Pd.read_csv. by rewrite H, He.
Qed.

(** Lines 17 to 36, for a frame with rows: every way through, with the
    world each way ends in. *)
Lemma plot_table log_file w df :
  fs w !! log_file = Some (File (Table df)) → Pd.empty df = false →
  plot_crate_history parse_date field_kind log_file w
  = let crate := crate_name log_file in
    match Pd.column df "Date" with
    | Raise e => (Raise e, w)
    | Ok date =>
    match Pd.stamps parse_date date with
    | Raise e => (Raise e, w)
    | Ok dates =>
    match Pd.column df "Direct Dependencies" with
    | Raise e => (Raise e, opened (Plt.blank (Some (12, 6)%nat)) w)
    | Ok direct =>
    if Pd.mixed field_kind direct
    then (Raise TypeError, opened (Plt.blank (Some (12, 6)%nat)) w)
    else
    let one := mkFigure (Some (12, 6)%nat) [mkLine dates direct "Direct" "o"]
                        "" "" "" false false 0 false in
    match Pd.column df "Indirect Dependencies" with
    | Raise e => (Raise e, opened one w)
    | Ok indirect =>
    if Pd.mixed field_kind indirect then (Raise TypeError, opened one w)
    else
        let g := chart crate dates direct indirect in
        match Plt.save_error (fs w) (output_file crate) with
        | Some e => (Raise e, opened g w)
        | None =>
            (Ok tt,
             mkWorld (<[output_file crate := File (Png g)]> (fs w))
                     (stdout w ++ ["Generated " +:+ output_file crate])
                     (figures w))
        end
    end end end end.
Proof.
  intros H He. unfold plot_crate_history, mbind, M_bind, os_path_exists, gets.
  rewrite H, bool_decide_eq_true_2 by eauto. simpl.
  unfold Pd.read_csv. rewrite H, He.
  unfold Pd.getitem, Pd.to_datetime, lift.
  destruct (Pd.column df "Date") as [date|e] eqn:Hdate; [|done].
  destruct (Pd.stamps parse_date date) as [dates|e] eqn:Hdates; [|done].
  assert (length dates = length (rows df)) as Hlen.
  { erewrite PdFacts.stamps_length, PdFacts.column_length; eauto. }
  simpl. rewrite (PdFacts.column_setitem _ _ _ _ Hdate Hlen).
  rewrite !(PdFacts.column_setitem_ne _ _ _ _ _ Hdate) by done.
  destruct w as [files out figs]; simpl in *.
  destruct (Pd.column df "Direct Dependencies") as [direct|e]; [|done].
  simpl. unfold Plt.plot.
  destruct (Pd.mixed field_kind direct); [done|]. simpl.
  destruct (Pd.column df "Indirect Dependencies") as [indirect|e]; [|done].
  simpl. destruct (Pd.mixed field_kind indirect); [done|].
  unfold Plt.savefig, Plt.gcf, mbind, M_bind. simpl.
  destruct (Plt.save_error files (output_file (crate_name log_file))); done.
Qed.

Lemma plot_directory log_file w names :
  fs w !! log_file = Some (Dir names) →
  plot_crate_history parse_date field_kind log_file w = (Raise (IsADirectoryError log_file), w).
Proof.
  intros H. unfold plot_crate_history, mbind, M_bind, os_path_exists, gets.
  rewrite H, bool_decide_eq_true_2 by eauto. simpl.
  unfold Pd.read_csv. by rewrite H.
Qed.

Lemma plot_unreadable log_file w c :
  fs w !! log_file = Some (File c) → (∀ df, c ≠ Table df) →
  plot_crate_history parse_date field_kind log_file w = (Raise (ParserError log_file), w).
Proof.
  intros H Hc. unfold plot_crate_history, mbind, M_bind, os_path_exists, gets.
  rewrite H, bool_decide_eq_true_2 by eauto. simpl.
  unfold Pd.read_csv. rewrite H. destruct c; [by destruct (Hc df)|done..].
Qed.

(** The way through to the saved chart. *)
Lemma plot_chart log_file w df date dates direct indirect :
  fs w !! log_file = Some (File (Table df)) →
  Pd.empty df = false →
  Pd.column df "Date" = Ok date →
  Pd.stamps parse_date date = Ok dates →
  Pd.column df "Direct Dependencies" = Ok direct →
  Pd.column df "Indirect Dependencies" = Ok indirect →
  Pd.mixed field_kind direct = false →
  Pd.mixed field_kind indirect = false →
  Plt.save_error (fs w) (output_file (crate_name log_file)) = None →
  plot_crate_history parse_date field_kind log_file w
  = (Ok tt,
     mkWorld (<[output_file (crate_name log_file) :=
                  File (Png (chart (crate_name log_file) dates direct indirect))]>
                (fs w))
             (stdout w ++ ["Generated " +:+ output_file (crate_name log_file)])
             (figures w)).
Proof.
  intros Hf He Hdate Hdates Hdirect Hindirect Hmd Hmi Hfree.
  rewrite (plot_table _ _ _ Hf He). simpl.
  by rewrite Hdate, Hdates, Hdirect, Hmd, Hindirect, Hmi, Hfree.
Qed.

(** What a returned call on a frame with rows went through. *)
Lemma plot_chart_inv log_file w w' df :
  fs w !! log_file = Some (File (Table df)) →
  Pd.empty df = false →
  plot_crate_history parse_date field_kind log_file w = (Ok tt, w') →
  ∃ date dates direct indirect,
    Pd.column df "Date" = Ok date
    ∧ Pd.stamps parse_date date = Ok dates
    ∧ Pd.column df "Direct Dependencies" = Ok direct
    ∧ Pd.column df "Indirect Dependencies" = Ok indirect
    ∧ fs w' = <[output_file (crate_name log_file) :=
                  File (Png (chart (crate_name log_file) dates direct indirect))]>
                (fs w).
Proof.
  intros Hf He. rewrite (plot_table _ _ _ Hf He). simpl.
  destruct (Pd.column df "Date") as [date|]; [|done].
  destruct (Pd.stamps _ _) as [dates|] eqn:Hdates; [|done].
  destruct (Pd.column df "Direct Dependencies") as [direct|]; [|done].
  destruct (Pd.mixed field_kind direct); [done|].
  destruct (Pd.column df "Indirect Dependencies") as [indirect|]; [|done].
  destruct (Pd.mixed field_kind indirect); [done|].
  destruct (Plt.save_error _ _);
    intros ?; simplify_eq; by eexists _, _, _, _.
Qed.

(** The four ways a call can end. *)
Lemma plot_cases log_file w :
  (∃ line, plot_crate_history parse_date field_kind log_file w = (Ok tt, printed line w))
  ∨ (∃ e, plot_crate_history parse_date field_kind log_file w = (Raise e, w))
  ∨ (∃ e g, plot_crate_history parse_date field_kind log_file w = (Raise e, opened g w))
  ∨ (∃ g line,
       plot_crate_history parse_date field_kind log_file w
       = (Ok tt,
          mkWorld (<[output_file (crate_name log_file) := File (Png g)]> (fs w))
                  (stdout w ++ [line]) (figures w))).
Proof.
  destruct (fs w !! log_file) as [[names|c]|] eqn:H.
  - right; left. eexists. by eapply plot_directory.
  - destruct c as [df| |g].
    + destruct (Pd.empty df) eqn:He.
      * left. eexists. by eapply plot_empty.
      * rewrite (plot_table _ _ _ H He). simpl.
        destruct (Pd.column df "Date"); [|by eauto].
        destruct (Pd.stamps _ _); [|by eauto].
        destruct (Pd.column df "Direct Dependencies"); [|by eauto 6].
        destruct (Pd.mixed field_kind _); [by eauto 6|].
        destruct (Pd.column df "Indirect Dependencies"); [|by eauto 6].
        destruct (Pd.mixed field_kind _); [by eauto 6|].
        destruct (Plt.save_error _ _); eauto 8.
    + right; left. eexists. by eapply plot_unreadable.
    + right; left. eexists. by eapply plot_unreadable.
  - left. eexists. by apply plot_missing.
Qed.

(** A call that raises has written nothing and printed nothing. *)
Lemma plot_raise_quiet log_file w e w' :
  plot_crate_history parse_date field_kind log_file w = (Raise e, w') →
  fs w' = fs w ∧ stdout w' = stdout w.
Proof.
  destruct (plot_cases log_file w)
    as [[? ->]|[[? ->]|[(? & ? & ->)|(? & ? & ->)]]];
    intros ?; by simplify_eq.
Qed.

(** A call that returns has closed what it opened. *)
Lemma plot_return_closed log_file w w' :
  plot_crate_history parse_date field_kind log_file w = (Ok tt, w') → figures w' = figures w.
Proof.
  destruct (plot_cases log_file w)
    as [[? ->]|[[? ->]|[(? & ? & ->)|(? & ? & ->)]]];
    intros ?; by simplify_eq.
Qed.

Lemma output_file_is_trend_image log_file :
  is_trend_image (output_file (crate_name log_file)).
Proof. eexists. split; [done|]. apply StrFacts.crate_name_no_slash. Qed.

Lemma basename_output_file crate :
  Str.has_char Str.slash crate = false →
  Str.basename (output_file crate) = output_file crate.
Proof.
  intros Hcrate. apply StrFacts.basename_from_plain.
  unfold output_file. by rewrite !StrFacts.has_char_app, Hcrate.
Qed.

(** Nothing stands against saving the chart of a crate where no directory
    sits at its path and its name is not too long. *)
Lemma save_error_None m crate :
  Str.has_char Str.slash crate = false →
  (∀ names, m !! output_file crate ≠ Some (Dir names)) →
  String.length (output_file crate) ≤ Plt.name_max →
  Plt.save_error m (output_file crate) = None.
Proof.
  intros Hcrate Hfree Hlen. unfold Plt.save_error.
  rewrite basename_output_file by done.
  apply Nat.ltb_ge in Hlen. rewrite Hlen.
  destruct (m !! output_file crate) as [[names|c]|] eqn:Hout;
    [by destruct (Hfree names)|done..].
Qed.

Lemma save_error_is_dir m path :
  Plt.save_error m path = None → is_dir (m !! path) = false.
Proof. unfold Plt.save_error. by destruct (m !! path) as [[?|?]|]. Qed.

Lemma save_error_alike m m' path :
  is_dir (m' !! path) = is_dir (m !! path) →
  Plt.save_error m' path = Plt.save_error m path.
Proof.
  unfold Plt.save_error.
  by destruct (m !! path) as [[?|?]|], (m' !! path) as [[?|?]|].
Qed.

(** A series of one field is not mixed. *)
Lemma mixed_one c : Pd.mixed field_kind [c] = false.
Proof.
  unfold Pd.mixed, Pd.is_words, Pd.is_missing. simpl.
  by destruct (Pd.kind_of field_kind c).
Qed.

Lemma only_images_refl w : only_images_written w w.
Proof. intros path. by left. Qed.

Lemma only_images_trans w1 w2 w3 :
  only_images_written w1 w2 → only_images_written w2 w3 →
  only_images_written w1 w3.
Proof.
  intros H12 H23 path. destruct (H23 path) as [Heq|?]; [|by right].
  rewrite Heq. apply H12.
Qed.

Lemma plot_only_images log_file w :
  only_images_written w (plot_crate_history parse_date field_kind log_file w).2.
Proof.
  destruct (plot_cases log_file w)
    as [[? ->]|[[? ->]|[(? & ? & ->)|(g & ? & ->)]]];
    unfold only_images_written; simpl; intros path; try (by left).
  destruct (decide (output_file (crate_name log_file) = path)) as [<-|Hne].
  - right. split; [apply output_file_is_trend_image|].
    rewrite lookup_insert_eq. by eexists.
  - left. by rewrite lookup_insert_ne.
Qed.

(** Saving a chart adds it to the images of the world. *)
Lemma images_saved path g files out figs :
  images (mkWorld (<[path := File (Png g)]> files) out figs)
  = <[path := g]> (images (mkWorld files out figs)).
Proof. unfold images. simpl. by apply omap_insert_Some. Qed.

Lemma images_fs w out figs : images (mkWorld (fs w) out figs) = images w.
Proof. done. Qed.

Lemma images_two_logs names ta tb :
  images (Sample.two_logs_world names ta tb) = ∅.
Proof.
  unfold images, Sample.two_logs_world, Sample.world_of. simpl.
  rewrite !omap_insert_None by done.
  by rewrite omap_empty, !delete_empty.
Qed.

(** *** The loop *)

Lemma for_each_cons (f : string) rest w :
  for_each (plot_crate_history parse_date field_kind) (f :: rest) w
  = match plot_crate_history parse_date field_kind f w with
    | (Ok _, w') => for_each (plot_crate_history parse_date field_kind) rest w'
    | (Raise e, w') => (Raise e, w')
    end.
Proof. reflexivity. Qed.

Lemma for_each_app (pre post : list string) w :
  for_each (plot_crate_history parse_date field_kind) (pre ++ post) w
  = match for_each (plot_crate_history parse_date field_kind) pre w with
    | (Ok _, w') => for_each (plot_crate_history parse_date field_kind) post w'
    | (Raise e, w') => (Raise e, w')
    end.
Proof.
  revert w. induction pre as [|f pre IH]; intros w; [done|].
  simpl app. rewrite !for_each_cons.
  destruct (plot_crate_history parse_date field_kind f w) as [[[]|e] w']; [apply IH|done].
Qed.

Lemma for_each_only_images (l : list string) w :
  only_images_written w (for_each (plot_crate_history parse_date field_kind) l w).2.
Proof.
  revert w. induction l as [|f l IH]; intros w; [apply only_images_refl|].
  rewrite for_each_cons.
  pose proof (plot_only_images f w) as Hf.
  destruct (plot_crate_history parse_date field_kind f w) as [[[]|e] w']; simpl in *; [|done].
  eapply only_images_trans; [exact Hf | apply IH].
Qed.

(** A directory none of whose names matches has nothing to hand out. *)
Lemma found_nil dir suffix w :
  (∀ names name, fs w !! dir = Some (Dir names) → name ∈ names →
                 Glob.matches_star suffix name = false) →
  Glob.found dir suffix w = [].
Proof.
  intros H. unfold Glob.found.
  destruct (fs w !! dir) as [[names|c]|]; [|done..].
  specialize (H names). induction names as [|name names IH]; [done|].
  simpl. rewrite (H name) by (done || by left).
  apply IH. intros name' Heq Hin. apply H; [done | by right].
Qed.

(** [main], branch by branch. *)
Lemma main_unfold w :
  main parse_date field_kind w
  = match fs w !! "dependency_logs" with
    | None =>
        (Ok tt, printed "No dependency logs found. Run track_deps.sh first." w)
    | Some _ =>
        match Glob.found "dependency_logs" "_history.csv" w with
        | [] => (Ok tt, printed "No history files found in dependency_logs/" w)
        | log_files => for_each (plot_crate_history parse_date field_kind) log_files w
        end
    end.
Proof.
  unfold main, Glob.glob_star, mbind, M_bind, os_path_exists, gets.
  destruct (fs w !! "dependency_logs") as [n|] eqn:H.
  - rewrite bool_decide_eq_true_2 by eauto. simpl.
    destruct (Glob.found _ _ w) eqn:Hl.
    + by rewrite bool_decide_eq_true_2.
    + by rewrite bool_decide_eq_false_2.
  - by rewrite bool_decide_eq_false_2 by (by intros [? ?]).
Qed.

End ScriptFacts.

(** * The claims *)

Section Claims.

Variable parse_date : list cell → string → option Timestamp.
Variable field_kind : string → kind.


(** C3, as the code has it.  A log with at least one data row that lacks
    one of the three columns, or holds a field in its Date column that is
    no date in that column, is not handled: the call raises, out of the loop as well, and
    it has written no file and printed no line. *)
Theorem schema_or_date_error_aborts log_file w df :
  fs w !! log_file = Some (File (Table df)) →
  Pd.empty df = false →
  ("Date" ∉ columns df
   ∨ "Direct Dependencies" ∉ columns df
   ∨ "Indirect Dependencies" ∉ columns df
   ∨ ∃ date field, Pd.column df "Date" = Ok date
                   ∧ Text field ∈ date ∧ parse_date date field = None) →
  ∃ e w',
    plot_crate_history parse_date field_kind log_file w = (Raise e, w')
    ∧ fs w' = fs w ∧ stdout w' = stdout w
    ∧ ∀ rest, for_each (plot_crate_history parse_date field_kind) (log_file :: rest) w
              = (Raise e, w').
Proof.
  intros Hf He Hbad.
  assert (∃ e w', plot_crate_history parse_date field_kind log_file w = (Raise e, w'))
    as (e & w' & Hplot).
  { rewrite (plot_table parse_date field_kind _ _ _ Hf He). simpl.
    destruct Hbad as [H|[H|[H|(date & field & Hdate & Hin & Hnone)]]].
    - rewrite (PdFacts.column_missing _ _ H). eauto.
    - rewrite (PdFacts.column_missing _ _ H).
      destruct (Pd.column df "Date"); [|by eauto].
      destruct (Pd.stamps _ _); eauto.
    - rewrite (PdFacts.column_missing _ _ H).
      destruct (Pd.column df "Date"); [|by eauto].
      destruct (Pd.stamps _ _); [|by eauto].
      destruct (Pd.column df "Direct Dependencies"); [|by eauto].
      destruct (Pd.mixed field_kind _); eauto.
    - rewrite Hdate.
      destruct (PdFacts.stamps_unparsable parse_date _ _ Hin Hnone) as [e ->].
      eauto. }
  exists e, w'. destruct (plot_raise_quiet _ _ _ _ _ _ Hplot) as [Hfs Hout].
  repeat split; [done..|]. intros rest. by rewrite for_each_cons, Hplot.
Qed.


(** C5.  When [dependency_logs] is missing, or is there and lists no name
    matching [*_history.csv], the run prints one diagnostic line, returns
    normally and leaves the file system, hence the images, as they were. *)
Theorem no_logs_no_images w :
  (∀ names name, fs w !! "dependency_logs" = Some (Dir names) →
                 name ∈ names →
                 Glob.matches_star "_history.csv" name = false) →
  main parse_date field_kind w
  = (Ok tt,
     printed
       match fs w !! "dependency_logs" with
       | None => "No dependency logs found. Run track_deps.sh first."
       | Some _ => "No history files found in dependency_logs/"
       end w).
Proof.
  intros H. rewrite main_unfold, (found_nil _ _ _ H).
  by destruct (fs w !! "dependency_logs").
Qed.

(** C6.  A log with a header and no data row is passed over: the call
    prints that the log holds no data, raises nothing, writes nothing, and
    the loop goes on with the files that follow it. *)
Theorem header_only_log_is_skipped log_file rest w df :
  fs w !! log_file = Some (File (Table df)) →
  rows df = [] →
  plot_crate_history parse_date field_kind log_file w
  = (Ok tt, printed ("No data in " +:+ log_file) w)
  ∧ for_each (plot_crate_history parse_date field_kind) (log_file :: rest) w
    = for_each (plot_crate_history parse_date field_kind) rest
               (printed ("No data in " +:+ log_file) w).
Proof.
  intros Hf Hrows.
  assert (Pd.empty df = true) as He.
  { unfold Pd.empty. rewrite Hrows. apply orb_true_r. }
  rewrite for_each_cons, (plot_empty parse_date field_kind _ _ _ Hf He). done.
Qed.

(** C7.  The chart saved for a log has two lines through the rows of the
    log in file order: point [n] of either line has the date read from row
    [n] (as a field of the Date column), the Direct line has the direct
    count of row [n] over it and the Indirect line the indirect count.
    Nothing is sorted on the way. *)
Theorem records_plotted_in_file_order log_file w w' df :
  fs w !! log_file = Some (File (Table df)) →
  Pd.empty df = false →
  plot_crate_history parse_date field_kind log_file w = (Ok tt, w') →
  ∃ i j k dates g,
    Pd.column_index "Date" (columns df) = Some i
    ∧ Pd.column_index "Direct Dependencies" (columns df) = Some j
    ∧ Pd.column_index "Indirect Dependencies" (columns df) = Some k
    ∧ fs w' !! output_file (crate_name log_file) = Some (File (Png g))
    ∧ fig_lines g
      = [mkLine dates (map (Pd.get_cell j) (rows df)) "Direct" "o";
         mkLine dates (map (Pd.get_cell k) (rows df)) "Indirect" "o"]
    ∧ Forall2 (λ r x, Pd.stamp parse_date (map (Pd.get_cell i) (rows df))
                               (Pd.get_cell i r) = Ok x)
              (rows df) dates.
Proof.
  intros Hf He Hplot.
  destruct (plot_chart_inv parse_date field_kind _ _ _ _ Hf He Hplot)
    as (date & dates & direct & indirect & Hdate & Hdates & Hdirect & Hindirect & Hfs).
  unfold Pd.column in Hdate, Hdirect, Hindirect.
  destruct (Pd.column_index "Date" _) as [i|]; [|done].
  destruct (Pd.column_index "Direct Dependencies" _) as [j|]; [|done].
  destruct (Pd.column_index "Indirect Dependencies" _) as [k|]; [|done].
  simplify_eq. eexists i, j, k, dates, _. repeat split.
  - rewrite Hfs. apply lookup_insert_eq.
  - done.
  - apply PdFacts.stamps_Forall2 in Hdates. unfold Pd.series in Hdates.
    clear -Hdates. revert Hdates.
    generalize (map (Pd.get_cell i) (rows df)) at 1 3. intros col.
    revert dates. induction (rows df) as [|r rs IH]; intros dates Hd;
      inversion Hd; subst; constructor; auto.
Qed.

(** C8.  Whatever the run meets, from its start to its end the file
    system changes in trend images only: every path holds what it held, or
    is [dependency_trend_<crate>.png] in the working directory and holds
    an image.  So [dependency_logs] and everything under it are as they
    were. *)
Theorem only_trend_images_written w :
  let w' := (main parse_date field_kind w).2 in
  only_images_written w w'
  ∧ fs w' !! "dependency_logs" = fs w !! "dependency_logs"
  ∧ ∀ name, fs w' !! ("dependency_logs/" +:+ name)
            = fs w !! ("dependency_logs/" +:+ name).
Proof.
  intros w'.
  assert (only_images_written w w') as Hframe.
  { unfold w'. rewrite main_unfold.
    destruct (fs w !! "dependency_logs"); [|by intros path; left].
    destruct (Glob.found _ _ w) eqn:Hfound; [by intros path; left|].
    apply for_each_only_images. }
  split; [done|]. split; [|intros name].
  - destruct (Hframe "dependency_logs") as [|[(crate & Heq & _) _]]; [done|].
    discriminate Heq.
  - destruct (Hframe ("dependency_logs/" +:+ name)) as [|[(crate & Heq & _) _]];
      [done|].
    discriminate Heq.
Qed.

(** C9.  With [a_history.csv] and [b_history.csv] in [dependency_logs],
    each a header and one data row whose date is one, the run returns
    normally and the images there are afterwards are the two charts,
    [dependency_trend_a.png] and [dependency_trend_b.png], whichever of
    the two logs the directory lists first. *)
Theorem two_logs_two_images da xa ya ta db xb yb tb names :
  parse_date [Text da] da = Some ta →
  parse_date [Text db] db = Some tb →
  names = ["a_history.csv"; "b_history.csv"]
  ∨ names = ["b_history.csv"; "a_history.csv"] →
  let w := Sample.two_logs_world names (Sample.one_row da xa ya)
                                       (Sample.one_row db xb yb) in
  (main parse_date field_kind w).1 = Ok tt
  ∧ images (main parse_date field_kind w).2
    = {[ "dependency_trend_a.png" := chart "a" [Stamp ta] [Text xa] [Text ya];
         "dependency_trend_b.png" := chart "b" [Stamp tb] [Text xb] [Text yb] ]}.
Proof.
  intros Hda Hdb Hnames w.
  assert (Pd.stamps parse_date [Text da] = Ok [Stamp ta]) as Hsa
    by (unfold Pd.stamps; simpl; by rewrite Hda).
  assert (Pd.stamps parse_date [Text db] = Ok [Stamp tb]) as Hsb
    by (unfold Pd.stamps; simpl; by rewrite Hdb).
  assert (∀ w0 : world,
            fs w0 !! Sample.a_log = Some (File (Table (Sample.one_row da xa ya))) →
            (∀ l, fs w0 !! "dependency_trend_a.png" ≠ Some (Dir l)) →
            plot_crate_history parse_date field_kind Sample.a_log w0
            = (Ok tt,
               mkWorld (<["dependency_trend_a.png" :=
                            File (Png (chart "a" [Stamp ta] [Text xa] [Text ya]))]>
                          (fs w0))
                       (stdout w0 ++ ["Generated dependency_trend_a.png"])
                       (figures w0))) as Ha.
  { intros w0 Hf Hfree.
    apply (plot_chart parse_date field_kind _ _ _ [Text da] _ _ _
             Hf eq_refl eq_refl Hsa eq_refl eq_refl
             (mixed_one field_kind _) (mixed_one field_kind _)).
    apply (save_error_None (fs w0) "a" eq_refl Hfree).
    apply Nat.leb_le. reflexivity. }
  assert (∀ w0 : world,
            fs w0 !! Sample.b_log = Some (File (Table (Sample.one_row db xb yb))) →
            (∀ l, fs w0 !! "dependency_trend_b.png" ≠ Some (Dir l)) →
            plot_crate_history parse_date field_kind Sample.b_log w0
            = (Ok tt,
               mkWorld (<["dependency_trend_b.png" :=
                            File (Png (chart "b" [Stamp tb] [Text xb] [Text yb]))]>
                          (fs w0))
                       (stdout w0 ++ ["Generated dependency_trend_b.png"])
                       (figures w0))) as Hb.
  { intros w0 Hf Hfree.
    apply (plot_chart parse_date field_kind _ _ _ [Text db] _ _ _
             Hf eq_refl eq_refl Hsb eq_refl eq_refl
             (mixed_one field_kind _) (mixed_one field_kind _)).
    apply (save_error_None (fs w0) "b" eq_refl Hfree).
    apply Nat.leb_le. reflexivity. }
  assert (images w = ∅) as Hnone by apply images_two_logs.
  rewrite main_unfold.
  destruct Hnames as [-> | ->].
  - change (fs w !! "dependency_logs")
      with (Some (Dir ["a_history.csv"; "b_history.csv"])).
    change (Glob.found "dependency_logs" "_history.csv" w)
      with [Sample.a_log; Sample.b_log].
    cbv beta iota.
    rewrite for_each_cons, Ha by (try intros l; by vm_compute).
    rewrite for_each_cons, Hb by (try intros l; by vm_compute).
    split; [done|]. clearbody w. simpl.
    rewrite !images_saved, images_fs, Hnone, insert_empty.
    by apply insert_insert_ne.
  - change (fs w !! "dependency_logs")
      with (Some (Dir ["b_history.csv"; "a_history.csv"])).
    change (Glob.found "dependency_logs" "_history.csv" w)
      with [Sample.b_log; Sample.a_log].
    cbv beta iota.
    rewrite for_each_cons, Hb by (try intros l; by vm_compute).
    rewrite for_each_cons, Ha by (try intros l; by vm_compute).
    split; [done|]. clearbody w. simpl.
    by rewrite !images_saved, images_fs, Hnone, insert_empty.
Qed.

(** C10.  The loop has no failure boundary of its own: when the call on
    one of the files found raises, the run ends with that exception in the
    world the call left, whose files are those the calls before it had
    written; the files listed after it are not processed. *)
Theorem first_failure_ends_run w pre log_file post w1 e w2 :
  Glob.found "dependency_logs" "_history.csv" w = pre ++ log_file :: post →
  for_each (plot_crate_history parse_date field_kind) pre w = (Ok tt, w1) →
  plot_crate_history parse_date field_kind log_file w1 = (Raise e, w2) →
  main parse_date field_kind w = (Raise e, w2) ∧ fs w2 = fs w1.
Proof.
  intros Hfound Hpre Hplot. split.
  - assert (main parse_date field_kind w
            = for_each (plot_crate_history parse_date field_kind)
                       (pre ++ log_file :: post) w) as ->.
    { rewrite main_unfold, Hfound.
      assert (is_Some (fs w !! "dependency_logs")) as [n ->].
      { unfold Glob.found in Hfound.
        destruct (fs w !! "dependency_logs"); [by eexists|].
        by destruct pre. }
      by destruct pre. }
    by rewrite for_each_app, Hpre, for_each_cons, Hplot.
  - by apply (plot_raise_quiet parse_date field_kind) in Hplot as [? _].
Qed.

End Claims.

(** C2, where the code leaves the claim.  The stem of
    [x_history.csv_history.csv] is [x_history.csv]; [replace] takes both
    occurrences of the suffix away, and the chart of this log is saved as
    [dependency_trend_x.png]. *)
Theorem crate_name_drops_inner_suffix :
  Spec.entity Sample.twice_log = "x_history.csv"
  ∧ crate_name Sample.twice_log = "x"
  ∧ let w' := (main Iso.parse_date Iso.field_kind Sample.twice_world).2 in
    is_Some (images w' !! "dependency_trend_x.png")
    ∧ images w' !! "dependency_trend_x_history.csv.png" = None.
Proof. vm_compute. eauto. Qed.



(** C3, as the specification has it, fails: a log with the wrong header and
    no data row is reported as empty and passed over, and the run ends
    without an error. *)
Lemma bare_log_is_skipped :
  fs Sample.bare_world !! Sample.bare_log
  = Some (File (Table (mkFrame ["Crate"; "Count"] [])))
  ∧ ("Date" ∉ ["Crate"; "Count"])
  ∧ main Iso.parse_date Iso.field_kind Sample.bare_world
    = (Ok tt, printed "No data in dependency_logs/bare_history.csv"
                      Sample.bare_world).
Proof.
  split; [done|]. split; [|by vm_compute].
  intros H. repeat (apply elem_of_cons in H as [H|H]; [done|]).
  by apply elem_of_nil in H.
Qed.

Lemma schema_or_date_error_aborts_witness :
  ∃ e w',
    plot_crate_history Iso.parse_date Iso.field_kind Sample.short_log Sample.short_world
    = (Raise e, w')
    ∧ fs w' = fs Sample.short_world.
Proof.
  destruct (schema_or_date_error_aborts Iso.parse_date Iso.field_kind
              Sample.short_log Sample.short_world Sample.short_table
              eq_refl eq_refl) as (e & w' & H & Hfs & _).
  - right; right; left. simpl. intros H.
    repeat (apply elem_of_cons in H as [H|H]; [done|]).
    by apply elem_of_nil in H.
  - exists e, w'. split; [exact H | exact Hfs].
Defined.



Lemma no_logs_no_images_witness :
  main Iso.parse_date Iso.field_kind Sample.no_logs_world
  = (Ok tt, printed "No dependency logs found. Run track_deps.sh first."
                    Sample.no_logs_world)
  ∧ main Iso.parse_date Iso.field_kind Sample.notes_world
    = (Ok tt, printed "No history files found in dependency_logs/"
                      Sample.notes_world).
Proof.
  split.
  - apply (no_logs_no_images Iso.parse_date Iso.field_kind Sample.no_logs_world).
    intros names name H. vm_compute in H. discriminate H.
  - apply (no_logs_no_images Iso.parse_date Iso.field_kind Sample.notes_world).
    intros names name H. vm_compute in H. injection H as <-.
    intros Hin.
    repeat (apply elem_of_cons in Hin as [->|Hin]; [by vm_compute|]).
    by apply elem_of_nil in Hin.
Defined.

Lemma header_only_log_is_skipped_witness :
  for_each (plot_crate_history Iso.parse_date Iso.field_kind)
           [Sample.empty_log; Sample.foo_log] Sample.empty_then_foo_world
  = for_each (plot_crate_history Iso.parse_date Iso.field_kind) [Sample.foo_log]
             (printed "No data in dependency_logs/empty_history.csv"
                      Sample.empty_then_foo_world).
Proof.
  exact (proj2 (header_only_log_is_skipped Iso.parse_date Iso.field_kind
                  Sample.empty_log [Sample.foo_log]
                  Sample.empty_then_foo_world (mkFrame Sample.header [])
                  eq_refl eq_refl)).
Defined.

Lemma records_plotted_in_file_order_witness :
  let w' := (plot_crate_history Iso.parse_date Iso.field_kind Sample.foo_log Sample.foo_world).2 in
  ∃ i j k dates g,
    Pd.column_index "Date" (columns Sample.foo_table) = Some i
    ∧ Pd.column_index "Direct Dependencies" (columns Sample.foo_table) = Some j
    ∧ Pd.column_index "Indirect Dependencies" (columns Sample.foo_table) = Some k
    ∧ fs w' !! output_file (crate_name Sample.foo_log) = Some (File (Png g))
    ∧ fig_lines g
      = [mkLine dates (map (Pd.get_cell j) (rows Sample.foo_table)) "Direct" "o";
         mkLine dates (map (Pd.get_cell k) (rows Sample.foo_table)) "Indirect" "o"]
    ∧ Forall2 (λ r x, Pd.stamp Iso.parse_date
                               (map (Pd.get_cell i) (rows Sample.foo_table))
                               (Pd.get_cell i r) = Ok x)
              (rows Sample.foo_table) dates.
Proof.
  intros w'.
  apply (records_plotted_in_file_order Iso.parse_date Iso.field_kind
           Sample.foo_log Sample.foo_world w' Sample.foo_table eq_refl eq_refl).
  by vm_compute.
Defined.

Lemma two_logs_two_images_witness :
  images (main Iso.parse_date Iso.field_kind
            (Sample.two_logs_world ["b_history.csv"; "a_history.csv"]
               (Sample.one_row "2024-01-01" "1" "4")
               (Sample.one_row "2024-01-08" "2" "6"))).2
  = {[ "dependency_trend_a.png" :=
         chart "a" [Stamp 1704067200000000000%Z] [Text "1"] [Text "4"];
       "dependency_trend_b.png" :=
         chart "b" [Stamp 1704672000000000000%Z] [Text "2"] [Text "6"] ]}.
Proof.
  refine (proj2 (two_logs_two_images Iso.parse_date Iso.field_kind
                   "2024-01-01" "1" "4" 1704067200000000000%Z
                   "2024-01-08" "2" "6" 1704672000000000000%Z
                   ["b_history.csv"; "a_history.csv"] _ _ (or_intror eq_refl)));
    by vm_compute.
Defined.

Lemma first_failure_ends_run_witness :
  (main Iso.parse_date Iso.field_kind Sample.short_world).1
  = Raise (KeyError "Indirect Dependencies")
  ∧ fs (main Iso.parse_date Iso.field_kind Sample.short_world).2 = fs Sample.short_world.
Proof.
  destruct (first_failure_ends_run Iso.parse_date Iso.field_kind Sample.short_world
              [] Sample.short_log [Sample.foo_log] Sample.short_world
              (KeyError "Indirect Dependencies")
              (plot_crate_history Iso.parse_date Iso.field_kind Sample.short_log
                                  Sample.short_world).2)
    as [Hmain Hfs]; [by vm_compute..|].
  rewrite Hmain. split; [done | exact Hfs].
Defined.

(** * Beyond the claims: the run as a whole *)

Section RunFacts.

Variable parse_date : list cell → string → option Timestamp.
Variable field_kind : string → kind.

(** A call does to the world what its outcome says. *)
Lemma plot_outcome log_file w :
  match outcome_of parse_date field_kind log_file (fs w) with
  | Pass =>
      ∃ line, plot_crate_history parse_date field_kind log_file w = (Ok tt, printed line w)
  | Write path g =>
      ∃ line,
        plot_crate_history parse_date field_kind log_file w
        = (Ok tt,
           mkWorld (<[path := File (Png g)]> (fs w)) (stdout w ++ [line])
                   (figures w))
  | Fail e =>
      plot_crate_history parse_date field_kind log_file w = (Raise e, w)
      ∨ ∃ g, plot_crate_history parse_date field_kind log_file w = (Raise e, opened g w)
  end.
Proof.
  unfold outcome_of.
  destruct (fs w !! log_file) as [[names|c]|] eqn:Hf.
  - left. by eapply plot_directory.
  - destruct c as [df| |g].
    + destruct (Pd.empty df) eqn:He.
      * eexists. by eapply plot_empty.
      * rewrite (plot_table parse_date field_kind _ _ _ Hf He). simpl.
        destruct (Pd.column df "Date"); [|by left].
        destruct (Pd.stamps _ _); [|by left].
        destruct (Pd.column df "Direct Dependencies"); [|right; by eexists].
        destruct (Pd.mixed field_kind _); [right; by eexists|].
        destruct (Pd.column df "Indirect Dependencies"); [|right; by eexists].
        destruct (Pd.mixed field_kind _); [right; by eexists|].
        destruct (Plt.save_error _ _); simpl; [right|]; by eexists.
    + left. by eapply plot_unreadable.
    + left. by eapply plot_unreadable.
  - eexists. by apply plot_missing.
Qed.

Lemma plot_outcome_fs log_file w :
  (plot_crate_history parse_date field_kind log_file w).1
  = match outcome_of parse_date field_kind log_file (fs w) with
    | Fail e => Raise e
    | _ => Ok tt
    end
  ∧ fs (plot_crate_history parse_date field_kind log_file w).2
    = put (outcome_of parse_date field_kind log_file (fs w)) (fs w).
Proof.
  pose proof (plot_outcome log_file w) as H.
  destruct (outcome_of parse_date field_kind log_file (fs w)) as [|path g|e].
  - by destruct H as [line ->].
  - by destruct H as [line ->].
  - by destruct H as [-> | [g ->]].
Qed.

Lemma for_each_run (l : list string) w :
  (for_each (plot_crate_history parse_date field_kind) l w).1 = (run_on parse_date field_kind l (fs w)).1
  ∧ fs (for_each (plot_crate_history parse_date field_kind) l w).2
    = (run_on parse_date field_kind l (fs w)).2.
Proof.
  revert w. induction l as [|f l IH]; intros w; [done|].
  rewrite for_each_cons. cbn [run_on].
  destruct (plot_outcome_fs f w) as [Hr Hfs].
  destruct (outcome_of parse_date field_kind f (fs w)) as [|path g|e'];
    destruct (plot_crate_history parse_date field_kind f w) as [[[]|e] w'];
    simpl in *; simplify_eq; try done; rewrite <- Hfs; apply IH.
Qed.

Lemma found_fs dir suffix w v :
  fs v !! dir = fs w !! dir → Glob.found dir suffix v = Glob.found dir suffix w.
Proof. unfold Glob.found. by intros ->. Qed.

Lemma main_run w :
  let l := Glob.found "dependency_logs" "_history.csv" w in
  (main parse_date field_kind w).1 = (run_on parse_date field_kind l (fs w)).1
  ∧ fs (main parse_date field_kind w).2 = (run_on parse_date field_kind l (fs w)).2.
Proof.
  intros l. rewrite main_unfold. fold l.
  destruct (fs w !! "dependency_logs") as [n|] eqn:Hdir.
  - clearbody l. destruct l as [|f l']; [done|]. apply for_each_run.
  - assert (l = []) as -> by (unfold l, Glob.found; by rewrite Hdir).
    done.
Qed.

(** X1.  The run reads the file system and nothing else of the world: from two
    worlds with the same files, whatever was printed and whichever figures
    are open in either, it ends the same way and leaves the same files. *)
Theorem run_reads_files_only w v :
  fs v = fs w →
  (main parse_date field_kind v).1 = (main parse_date field_kind w).1
  ∧ fs (main parse_date field_kind v).2 = fs (main parse_date field_kind w).2.
Proof.
  intros Hfs.
  destruct (main_run w) as [Hr Hm], (main_run v) as [Hr' Hm'].
  rewrite Hr, Hm, Hr', Hm', (found_fs _ _ w v), Hfs by (by rewrite Hfs). done.
Qed.

(** *** What a call can and cannot see *)

Lemma outcome_of_alike f m m' :
  m' !! f = m !! f →
  is_dir (m' !! output_file (crate_name f))
  = is_dir (m !! output_file (crate_name f)) →
  outcome_of parse_date field_kind f m' = outcome_of parse_date field_kind f m.
Proof.
  intros Hf Hd. unfold outcome_of.
  by rewrite Hf, (save_error_alike _ _ _ Hd).
Qed.

Lemma outcome_write f m path g :
  outcome_of parse_date field_kind f m = Write path g →
  path = output_file (crate_name f) ∧ is_dir (m !! path) = false.
Proof.
  unfold outcome_of. destruct (m !! f) as [[names|[df| |g']]|]; try done.
  destruct (Pd.empty df); [done|].
  destruct (Pd.column df "Date"); [|done].
  destruct (Pd.stamps _ _); [|done].
  destruct (Pd.column df "Direct Dependencies"); [|done].
  destruct (Pd.mixed field_kind _); [done|].
  destruct (Pd.column df "Indirect Dependencies"); [|done].
  destruct (Pd.mixed field_kind _); [done|].
  simpl. destruct (Plt.save_error _ _) eqn:Hs; [done|]. intros [= <- <-].
  split; [done | by apply save_error_is_dir].
Qed.

Lemma is_dir_put (path : string) c (m : gmap string node) (q : string) :
  is_dir (m !! path) = false →
  is_dir (<[path := File c]> m !! q) = is_dir (m !! q).
Proof.
  intros Hp. destruct (decide (path = q)) as [<-|Hne].
  - by rewrite lookup_insert_eq, Hp.
  - by rewrite lookup_insert_ne.
Qed.

Lemma alike_refl l m : alike l m m.
Proof. by intros f Hf. Qed.

Lemma alike_sym l m m' : alike l m m' → alike l m' m.
Proof. intros H f Hf. by destruct (H f Hf) as [-> ->]. Qed.

Lemma alike_trans l m1 m2 m3 : alike l m1 m2 → alike l m2 m3 → alike l m1 m3.
Proof.
  intros H12 H23 f Hf.
  destruct (H12 f Hf) as [<- <-]. by destruct (H23 f Hf) as [-> ->].
Qed.

Lemma alike_cons f l m m' : alike (f :: l) m m' → alike l m m'.
Proof. intros H f' Hf'. apply H. by right. Qed.

(** Writing a file at a trend image path that held no directory is not
    seen by a call on any other kind of path. *)
Lemma alike_insert l m path c :
  Forall (λ f, ¬ is_trend_image f) l →
  is_trend_image path → is_dir (m !! path) = false →
  alike l m (<[path := File c]> m).
Proof.
  intros Hl Hpath Hdir f Hf. split.
  - apply lookup_insert_ne. intros ->.
    rewrite Forall_forall in Hl. by apply (Hl f).
  - by apply is_dir_put.
Qed.

Lemma alike_put l f m :
  Forall (λ f, ¬ is_trend_image f) l →
  alike l m (put (outcome_of parse_date field_kind f m) m).
Proof.
  intros Hl. destruct (outcome_of parse_date field_kind f m) as [|path g|e] eqn:Ho;
    simpl; try apply alike_refl.
  apply outcome_write in Ho as [-> Hdir].
  apply alike_insert; [done | apply output_file_is_trend_image | done].
Qed.

Lemma alike_run l' l : ∀ m,
  Forall (λ f, ¬ is_trend_image f) l' →
  alike l' m (run_on parse_date field_kind l m).2.
Proof.
  induction l as [|f l IH]; intros m Hl'; [apply alike_refl|].
  simpl. pose proof (alike_put l' f m Hl') as Hput.
  destruct (outcome_of parse_date field_kind f m) as [|path g|e];
    [| |apply alike_refl]; (eapply alike_trans; [exact Hput | by apply IH]).
Qed.

(** From file systems alike for its files the loop ends the same way and
    writes the same images in the same order. *)
Lemma run_alike l : ∀ m m',
  Forall (λ f, ¬ is_trend_image f) l →
  alike l m m' →
  (run_on parse_date field_kind l m').1 = (run_on parse_date field_kind l m).1
  ∧ writes parse_date field_kind l m' = writes parse_date field_kind l m.
Proof.
  induction l as [|f l IH]; intros m m' Hl Hal; [done|].
  destruct (Hal f) as [Hf Hd]; [by left|].
  simpl. rewrite (outcome_of_alike _ _ _ Hf Hd).
  apply Forall_cons in Hl as [Hnf Hl]. apply alike_cons in Hal.
  destruct (outcome_of parse_date field_kind f m) as [|path g|e] eqn:Ho; [by apply IH| |done].
  destruct (outcome_write _ _ _ _ Ho) as [-> Hdir].
  assert (is_dir (m' !! output_file (crate_name f)) = false) as Hdir'
    by (by rewrite Hd).
  destruct (IH (<[output_file (crate_name f) := File (Png g)]> m)
               (<[output_file (crate_name f) := File (Png g)]> m') Hl)
    as [-> ->]; [|done].
  eapply alike_trans; [|eapply alike_trans; [exact Hal|]].
  - apply alike_sym, alike_insert;
      [done | apply output_file_is_trend_image | done].
  - apply alike_insert; [done | apply output_file_is_trend_image | done].
Qed.

Lemma run_writes l : ∀ m,
  (run_on parse_date field_kind l m).2 = put_all (writes parse_date field_kind l m) m.
Proof.
  induction l as [|f l IH]; intros m; [done|]. simpl.
  destruct (outcome_of parse_date field_kind f m) as [|path g|e]; [apply IH..|done].
Qed.

Lemma put_all_union ws : ∀ m, put_all ws m = put_all ws ∅ ∪ m.
Proof.
  induction ws as [|[path g] ws IH]; intros m; simpl.
  - by rewrite (left_id_L ∅ (∪)).
  - rewrite (IH (<[path := _]> m)), (IH (<[path := _]> ∅)).
    rewrite <- (assoc_L (∪)). f_equal.
    by rewrite insert_empty, <- insert_union_singleton_l.
Qed.

(** Writing a sequence of images over again changes nothing. *)
Lemma put_all_twice ws m : put_all ws (put_all ws m) = put_all ws m.
Proof.
  rewrite (put_all_union ws (put_all ws m)), (put_all_union ws m).
  by rewrite (assoc_L (∪)), (idemp_L (∪)).
Qed.

Lemma found_logs_not_trend w :
  Forall (λ f, ¬ is_trend_image f)
         (Glob.found "dependency_logs" "_history.csv" w).
Proof.
  apply Forall_forall. intros f Hf. unfold Glob.found in Hf.
  destruct (fs w !! "dependency_logs") as [[names|c]|];
    try (by apply elem_of_nil in Hf).
  apply list_elem_of_In, in_map_iff in Hf as (name & <- & _).
  intros (crate & Heq & _). discriminate Heq.
Qed.

(** X2.  Running the script again changes nothing: on the files a run has left,
    whatever the state of the process, a second run ends the way the first
    did and leaves every file as it finds it. *)
Theorem second_run_changes_nothing w v :
  fs v = fs (main parse_date field_kind w).2 →
  (main parse_date field_kind v).1 = (main parse_date field_kind w).1
  ∧ fs (main parse_date field_kind v).2 = fs v.
Proof.
  intros Hv.
  pose proof (found_logs_not_trend w) as Hl.
  destruct (main_run w) as [Hr Hm], (main_run v) as [Hr' Hm']. simpl in *.
  set (l := Glob.found "dependency_logs" "_history.csv" w) in *.
  pose proof (alike_run l l (fs w) Hl) as Hal.
  pose proof (alike_run ["dependency_logs"] l (fs w)) as Hdir.
  assert (Glob.found "dependency_logs" "_history.csv" v = l) as Hfound.
  { apply found_fs. rewrite Hv, Hm.
    destruct (Hdir) with (f := "dependency_logs") as [Heq _]; [|by left|done].
    constructor; [|constructor]. intros (crate & Heq & _). discriminate Heq. }
  rewrite Hfound, Hv, Hm in Hr', Hm'.
  destruct (run_alike l _ _ Hl Hal) as [Hres Hws].
  rewrite Hr', Hm', Hr, Hres. split; [done|].
  rewrite Hv, Hm, (run_writes l (run_on parse_date field_kind l (fs w)).2), Hws.
  rewrite (run_writes l (fs w)). apply put_all_twice.
Qed.

(** *** Single calls: the guards and the order of the errors *)

(** X3.  A path that names no file is reported and passed over; the loop goes on
    with the files after it, nothing written and nothing raised. *)
Theorem missing_log_is_reported_and_skipped log_file rest w :
  fs w !! log_file = None →
  plot_crate_history parse_date field_kind log_file w
  = (Ok tt, printed ("No history file found: " +:+ log_file) w)
  ∧ for_each (plot_crate_history parse_date field_kind) (log_file :: rest) w
    = for_each (plot_crate_history parse_date field_kind) rest
               (printed ("No history file found: " +:+ log_file) w).
Proof.
  intros Hf. by rewrite for_each_cons, (plot_missing parse_date field_kind _ _ Hf).
Qed.

Lemma stamps_of_first_bad col good field rest :
  (∀ s, Text s ∈ good → is_Some (parse_date col s)) →
  parse_date col field = None →
  Pd.stamps_of parse_date col (good ++ Text field :: rest)
  = Raise (DateParseError field).
Proof.
  intros Hgood Hbad. induction good as [|c good IH]; simpl.
  - by rewrite Hbad.
  - rewrite IH by (intros s Hs; apply Hgood; by right).
    destruct c as [s|t]; simpl; [|done].
    destruct (Hgood s) as [t ->]; [by left|done].
Qed.

(** X4.  The Date column is read and converted before any figure is opened: a
    log with rows that lacks the column raises [KeyError] for it, a log
    whose Date column holds a field that is no date in that column raises
    for the first such field in file order, and either way the world is
    left exactly as it was. *)
Theorem date_error_leaves_world_untouched log_file w df e :
  fs w !! log_file = Some (File (Table df)) →
  Pd.empty df = false →
  (("Date" ∉ columns df) ∧ e = KeyError "Date")
  ∨ (∃ good field rest,
       let date := good ++ Text field :: rest in
       Pd.column df "Date" = Ok date
       ∧ (∀ s, Text s ∈ good → is_Some (parse_date date s))
       ∧ parse_date date field = None
       ∧ e = DateParseError field) →
  plot_crate_history parse_date field_kind log_file w = (Raise e, w).
Proof.
  intros Hf He Hbad. rewrite (plot_table parse_date field_kind _ _ _ Hf He). simpl.
  destruct Hbad as [[Hno ->]|(good & field & rest & Hdate & Hgood & Hbad & ->)].
  - by rewrite (PdFacts.column_missing _ _ Hno).
  - rewrite Hdate. unfold Pd.stamps.
    by rewrite (stamps_of_first_bad _ _ _ _ Hgood Hbad).
Qed.


(** *** The run: what it prints and which figures it leaves *)

Lemma plot_prints log_file w :
  let r := plot_crate_history parse_date field_kind log_file w in
  figures r.2 = figures w ∧ (∃ line, r.1 = Ok tt ∧ stdout r.2 = stdout w ++ [line])
  ∨ (∃ e, r.1 = Raise e) ∧ stdout r.2 = stdout w
    ∧ (figures r.2 = figures w ∨ ∃ g, figures r.2 = g :: figures w).
Proof.
  destruct (plot_cases parse_date field_kind log_file w)
    as [[? ->]|[[? ->]|[(? & ? & ->)|(? & ? & ->)]]]; simpl; eauto 10.
Qed.

Lemma for_each_prints (l : list string) : ∀ w,
  let r := for_each (plot_crate_history parse_date field_kind) l w in
  ∃ lines,
    stdout r.2 = stdout w ++ lines
    ∧ match r.1 with
      | Ok _ => length lines = length l ∧ figures r.2 = figures w
      | Raise e =>
          (∃ pre f post w1,
             l = pre ++ f :: post
             ∧ for_each (plot_crate_history parse_date field_kind) pre w
               = (Ok tt, w1)
             ∧ plot_crate_history parse_date field_kind f w1 = (Raise e, r.2)
             ∧ length lines = length pre)
          ∧ (figures r.2 = figures w ∨ ∃ g, figures r.2 = g :: figures w)
      end.
Proof.
  induction l as [|f l IH]; intros w.
  - exists []. simpl. by rewrite app_nil_r.
  - cbv zeta. rewrite for_each_cons.
    destruct (plot_prints f w) as [[Hfig (line & Hr & Hout)]|[[e Hr] [Hout Hfig]]];
      destruct (plot_crate_history parse_date field_kind f w) as [[[]|e'] w'] eqn:Hplot;
      simpl in *; simplify_eq.
    + destruct (IH w') as (lines & Hlines & Hres).
      exists (line :: lines). rewrite Hlines, Hout, <- app_assoc.
      split; [done|].
      destruct (for_each _ l w') as [[[]|e0] w''] eqn:Hrest; simpl in *;
        rewrite <- Hfig.
      * split; [lia | tauto].
      * destruct Hres as [(pre & f0 & post & w1 & -> & Hpre & Hf0 & Hlen) Hfigs].
        split; [|done].
        exists (f :: pre), f0, post, w1. repeat split; [|done|simpl; lia].
        by rewrite for_each_cons, Hplot.
    + exists []. simpl. rewrite app_nil_r. split; [done|]. split; [|done].
      by exists [], f, l, w.
Qed.

(** X6.  The run only ever adds lines to what was printed.  When it returns it
    has printed one line for each log found, or the one diagnostic when
    there was none.  When it raises, the logs found split into those before
    the failing one, whose calls returned, the failing one and the rest,
    and it has printed exactly one line for each log before the failing
    one. *)
Theorem run_prints_one_line_per_log w :
  let found := Glob.found "dependency_logs" "_history.csv" w in
  ∃ lines,
    stdout (main parse_date field_kind w).2 = stdout w ++ lines
    ∧ match (main parse_date field_kind w).1 with
      | Ok _ => length lines = max 1 (length found)
      | Raise e =>
          ∃ pre log_file post w1,
            found = pre ++ log_file :: post
            ∧ for_each (plot_crate_history parse_date field_kind) pre w
              = (Ok tt, w1)
            ∧ plot_crate_history parse_date field_kind log_file w1
              = (Raise e, (main parse_date field_kind w).2)
            ∧ length lines = length pre
      end.
Proof.
  intros found. rewrite main_unfold. fold found.
  destruct (fs w !! "dependency_logs") as [n|] eqn:Hdir.
  - clearbody found.
    destruct found as [|f l];
      [by exists ["No history files found in dependency_logs/"]|].
    destruct (for_each_prints (f :: l) w) as (lines & Hlines & Hres).
    exists lines. split; [done|].
    destruct (for_each _ _ w).1; [|tauto].
    destruct Hres as [-> _]. simpl. lia.
  - assert (found = []) as -> by (unfold found, Glob.found; by rewrite Hdir).
    by exists ["No dependency logs found. Run track_deps.sh first."].
Qed.

(** X7.  A run that returns has closed every figure it opened; a run that
    raises leaves at most one figure open beyond those open before it. *)
Theorem run_leaves_at_most_one_figure w :
  match (main parse_date field_kind w).1 with
  | Ok _ => figures (main parse_date field_kind w).2 = figures w
  | Raise _ =>
      figures (main parse_date field_kind w).2 = figures w
      ∨ ∃ g, figures (main parse_date field_kind w).2 = g :: figures w
  end.
Proof.
  rewrite main_unfold.
  destruct (fs w !! "dependency_logs") as [n|]; [|done].
  destruct (Glob.found _ _ w) as [|f l]; [done|].
  destruct (for_each_prints (f :: l) w) as (lines & _ & Hres).
  destruct (for_each _ _ w).1; tauto.
Qed.

(** *** Names: what glob hands out and where the charts go *)

Lemma ends_with_unfold suf s :
  Str.ends_with suf s
  = String.eqb s suf
    || match s with
       | EmptyString => false
       | String _ s' => Str.ends_with suf s'
       end.
Proof. by destruct s. Qed.

(** [ends_with] is Python's [endswith]. *)
Lemma ends_with_spec suf s :
  Str.ends_with suf s = true ↔ ∃ pre, s = pre +:+ suf.
Proof.
  split.
  - induction s as [|c s IH]; rewrite ends_with_unfold.
    + rewrite orb_false_r. intros ->%String.eqb_eq. by exists "".
    + intros [->%String.eqb_eq|H]%orb_true_iff; [by exists ""|].
      destruct (IH H) as [pre ->]. by exists (String c pre).
  - intros [pre ->]. induction pre as [|c pre IH]; rewrite ends_with_unfold.
    + change ("" +:+ suf) with suf. by rewrite String.eqb_refl.
    + rewrite StrFacts.append_cons, IH. apply orb_true_r.
Qed.

(** What glob hands out: the names of [dependency_logs] of the form
    [<stem>_history.csv] that do not begin with a dot, each joined to the
    directory; the stem may be empty. *)
Lemma found_logs_spec w log_file :
  log_file ∈ Glob.found "dependency_logs" "_history.csv" w
  ↔ ∃ names stem,
      fs w !! "dependency_logs" = Some (Dir names)
      ∧ stem +:+ "_history.csv" ∈ names
      ∧ Str.starts_with "." (stem +:+ "_history.csv") = false
      ∧ log_file = "dependency_logs/" +:+ stem +:+ "_history.csv".
Proof.
  unfold Glob.found. split.
  - destruct (fs w !! "dependency_logs") as [[names|c]|];
      try (by intros ?%elem_of_nil).
    intros (name & <- & [Hin Hm]%filter_In)%list_elem_of_In%in_map_iff.
    apply andb_true_iff in Hm as [Hdot [stem ->]%ends_with_spec].
    exists names, stem. repeat split; [by apply list_elem_of_In|].
    by apply negb_true_iff.
  - intros (names & stem & -> & Hin & Hdot & ->).
    apply list_elem_of_In, in_map_iff.
    exists (stem +:+ "_history.csv"). split; [done|].
    apply filter_In. split; [by apply list_elem_of_In|].
    unfold Glob.matches_star. rewrite Hdot. simpl.
    apply ends_with_spec. by eexists.
Qed.

Lemma append_inj_r (a b s : string) : a +:+ s = b +:+ s → a = b.
Proof.
  revert b. induction a as [|c a IH]; intros [|d b] H; [done|..].
  - apply (f_equal String.length) in H.
    rewrite StrFacts.append_cons in H. simpl in H.
    rewrite StrFacts.length_append in H. lia.
  - apply (f_equal String.length) in H.
    rewrite StrFacts.append_cons in H. simpl in H.
    rewrite StrFacts.length_append in H. lia.
  - rewrite !StrFacts.append_cons in H. injection H as -> H.
    by rewrite (IH b H).
Qed.

Lemma output_file_inj a b : output_file a = output_file b → a = b.
Proof.
  unfold output_file. intros H%(inj (String.append _)).
  by apply append_inj_r in H.
Qed.

(** X9.  The chart of a log goes to a file named after its stem, and to no
    other log's file: for stems free of slashes and of [_history.csv], the
    charts of two different logs go to two different paths. *)
Theorem charts_of_distinct_logs_are_distinct_files stem1 stem2 :
  Str.has_char Str.slash stem1 = false →
  Str.contains "_history.csv" stem1 = false →
  Str.has_char Str.slash stem2 = false →
  Str.contains "_history.csv" stem2 = false →
  stem1 ≠ stem2 →
  output_file (crate_name ("dependency_logs/" +:+ stem1 +:+ "_history.csv"))
  ≠ output_file (crate_name ("dependency_logs/" +:+ stem2 +:+ "_history.csv")).
Proof.
  intros Hs1 Hc1 Hs2 Hc2 Hne Heq. apply Hne. apply output_file_inj in Heq.
  assert (∀ rest, "dependency_logs/" +:+ rest = "dependency_logs" +:+ "/" +:+ rest)
    as Hjoin by done.
  rewrite !Hjoin in Heq.
  by rewrite (StrFacts.crate_name_join "dependency_logs" stem1),
             (StrFacts.crate_name_join "dependency_logs" stem2) in Heq.
Qed.

(** *** Where every image comes from *)

Lemma put_all_lookup ws : ∀ (m : gmap string node) (path : string),
  put_all ws m !! path = m !! path
  ∨ ∃ g, (path, g) ∈ ws ∧ put_all ws m !! path = Some (File (Png g)).
Proof.
  induction ws as [|[q g0] ws IH]; intros m path; simpl; [by left|].
  destruct (IH (<[q := File (Png g0)]> m) path) as [Heq|(g & Hin & Heq)].
  - rewrite Heq. destruct (decide (q = path)) as [->|Hne].
    + right. exists g0. rewrite lookup_insert_eq. split; [by left|done].
    + left. by rewrite lookup_insert_ne.
  - right. exists g. split; [by right|done].
Qed.

Lemma writes_elem l path g : ∀ m,
  Forall (λ f, ¬ is_trend_image f) l →
  (path, g) ∈ writes parse_date field_kind l m →
  ∃ f, f ∈ l ∧ outcome_of parse_date field_kind f m = Write path g.
Proof.
  induction l as [|f l IH]; intros m Hl Hin; [by apply elem_of_nil in Hin|].
  apply Forall_cons in Hl as [Hnf Hl]. simpl in Hin.
  destruct (outcome_of parse_date field_kind f m) as [|q g0|e] eqn:Ho.
  - destruct (IH m Hl Hin) as (f' & Hf' & Ho'). exists f'. split; [by right|done].
  - apply elem_of_cons in Hin as [[= -> ->]|Hin].
    + exists f. split; [by left|done].
    + destruct (IH _ Hl Hin) as (f' & Hf' & Ho').
      exists f'. split; [by right|]. rewrite <- Ho'. symmetry.
      destruct (outcome_write _ _ _ _ Ho) as [-> Hdir].
      destruct (alike_insert l m _ (Png g0) Hl
                  (output_file_is_trend_image f) Hdir f' Hf') as [H1 H2].
      by apply outcome_of_alike.
  - by apply elem_of_nil in Hin.
Qed.

Lemma outcome_write_chart f m path g :
  outcome_of parse_date field_kind f m = Write path g →
  ∃ df date dates direct indirect,
    m !! f = Some (File (Table df))
    ∧ Pd.column df "Date" = Ok date
    ∧ Pd.stamps parse_date date = Ok dates
    ∧ Pd.column df "Direct Dependencies" = Ok direct
    ∧ Pd.column df "Indirect Dependencies" = Ok indirect
    ∧ g = chart (crate_name f) dates direct indirect.
Proof.
  unfold outcome_of. destruct (m !! f) as [[names|[df| |g']]|]; try done.
  destruct (Pd.empty df); [done|].
  destruct (Pd.column df "Date") as [date|] eqn:Hdate; [|done].
  destruct (Pd.stamps _ _) as [dates|] eqn:Hdates; [|done].
  destruct (Pd.column df "Direct Dependencies") as [direct|] eqn:Hd; [|done].
  destruct (Pd.mixed field_kind direct); [done|].
  destruct (Pd.column df "Indirect Dependencies") as [indirect|] eqn:Hi; [|done].
  destruct (Pd.mixed field_kind indirect); [done|].
  simpl. destruct (Plt.save_error _ _); [done|]. intros [= <- <-].
  by eexists df, date, dates, direct, indirect.
Qed.

(** X10.  Every file the run changes is the chart of a log it found: the path
    holds what it held, or it is the output path of a log found, whose
    table, as it stood before the run, has the three columns and a Date
    column that converts, and it now holds the chart drawn from them. *)
Theorem every_image_written_charts_a_log_found w path :
  fs (main parse_date field_kind w).2 !! path = fs w !! path
  ∨ ∃ log_file df date dates direct indirect,
      log_file ∈ Glob.found "dependency_logs" "_history.csv" w
      ∧ fs w !! log_file = Some (File (Table df))
      ∧ Pd.column df "Date" = Ok date
      ∧ Pd.stamps parse_date date = Ok dates
      ∧ Pd.column df "Direct Dependencies" = Ok direct
      ∧ Pd.column df "Indirect Dependencies" = Ok indirect
      ∧ path = output_file (crate_name log_file)
      ∧ fs (main parse_date field_kind w).2 !! path
        = Some (File (Png (chart (crate_name log_file) dates direct indirect))).
Proof.
  destruct (main_run w) as [_ ->]. simpl. rewrite run_writes.
  set (l := Glob.found "dependency_logs" "_history.csv" w).
  destruct (put_all_lookup (writes parse_date field_kind l (fs w)) (fs w) path)
    as [?|(g & Hin & Hg)]; [by left|right].
  destruct (writes_elem l path g _ (found_logs_not_trend w) Hin)
    as (f & Hf & Ho).
  destruct (outcome_write_chart _ _ _ _ Ho)
    as (df & date & dates & direct & indirect & ? & ? & ? & ? & ? & ->).
  destruct (outcome_write _ _ _ _ Ho) as [-> _].
  by exists f, df, date, dates, direct, indirect.
Qed.

(** *** The order of the listing *)

(** A loop none of whose calls fails, each judged on files alike for the
    files of the loop, returns, and writes what each call writes. *)
Lemma run_ok l m0 : ∀ m,
  Forall (λ f, ¬ is_trend_image f) l →
  alike l m0 m →
  (∀ f e, f ∈ l → outcome_of parse_date field_kind f m0 ≠ Fail e) →
  (run_on parse_date field_kind l m).1 = Ok tt
  ∧ writes parse_date field_kind l m = omap (write_of parse_date field_kind m0) l.
Proof.
  induction l as [|f l IH]; intros m Hl Hal Hok; [done|].
  destruct (Hal f) as [Hf Hd]; [by left|].
  pose proof (outcome_of_alike _ _ _ Hf Hd) as Ho.
  pose proof (Hok f) as Hokf.
  apply Forall_cons in Hl as [Hnf Hl]. apply alike_cons in Hal.
  simpl. unfold write_of at 1. rewrite Ho.
  destruct (outcome_of parse_date field_kind f m0) as [|path g|e] eqn:Ho0.
  - apply IH; [done..|]. intros f' e Hf'. apply Hok. by right.
  - destruct (outcome_write _ _ _ _ Ho) as [-> Hdir].
    destruct (IH (<[output_file (crate_name f) := File (Png g)]> m)) as [-> ->];
      [done| |intros f' e Hf'; apply Hok; by right|done].
    eapply alike_trans; [exact Hal|].
    apply alike_insert; [done | apply output_file_is_trend_image | done].
  - destruct (Hokf e); [by left | done].
Qed.

Lemma run_ok_inv l m0 : ∀ m,
  Forall (λ f, ¬ is_trend_image f) l →
  alike l m0 m →
  (run_on parse_date field_kind l m).1 = Ok tt →
  ∀ f e, f ∈ l → outcome_of parse_date field_kind f m0 ≠ Fail e.
Proof.
  induction l as [|f l IH]; intros m Hl Hal Hrun f' e Hf';
    [by apply elem_of_nil in Hf'|].
  destruct (Hal f) as [Hf Hd]; [by left|].
  pose proof (outcome_of_alike _ _ _ Hf Hd) as Ho.
  apply Forall_cons in Hl as [Hnf Hl]. apply alike_cons in Hal.
  simpl in Hrun.
  destruct (outcome_of parse_date field_kind f m) as [|path g|e0] eqn:Hom; [| |done].
  - apply elem_of_cons in Hf' as [->|Hf']; [by rewrite <- Ho|].
    by eapply IH.
  - apply elem_of_cons in Hf' as [->|Hf']; [by rewrite <- Ho|].
    destruct (outcome_write _ _ _ _ Hom) as [-> Hdir].
    eapply (IH _ Hl); [|exact Hrun|exact Hf'].
    eapply alike_trans; [exact Hal|].
    apply alike_insert; [done | apply output_file_is_trend_image | done].
Qed.

Lemma filter_Permutation {A} (P : A → bool) (l l' : list A) :
  l ≡ₚ l' → List.filter P l ≡ₚ List.filter P l'.
Proof.
  induction 1 as [|x l l' _ IH|x y l|l1 l2 l3 _ IH1 _ IH2]; simpl.
  - done.
  - destruct (P x); [by constructor | done].
  - destruct (P x), (P y); try done. by constructor.
  - by etrans.
Qed.

(** Writes to different paths can be made in any order. *)
Lemma put_all_perm ws ws' :
  ws ≡ₚ ws' → ∀ m, NoDup ws.*1 → put_all ws m = put_all ws' m.
Proof.
  induction 1 as [|[p g] ws ws' Hp IH|[p g] [q h] ws|ws1 ws2 ws3 Hp1 IH1 Hp2 IH2];
    intros m Hnd; simpl in *.
  - done.
  - apply NoDup_cons in Hnd as [_ Hnd]. by apply IH.
  - apply NoDup_cons in Hnd as [Hne _]. f_equal.
    apply insert_insert_ne. intros ->. apply Hne. by left.
  - rewrite IH1 by done. apply IH2. by rewrite <- Hp1.
Qed.

Lemma writes_keys_NoDup l m :
  NoDup (crate_name <$> l) →
  NoDup (omap (write_of parse_date field_kind m) l).*1.
Proof.
  induction l as [|f l IH]; simpl; [constructor|].
  intros [Hnotin Hnd]%NoDup_cons. unfold write_of at 1.
  destruct (outcome_of parse_date field_kind f m) as [|path g|e] eqn:Ho; [by apply IH| |by apply IH].
  simpl. apply NoDup_cons. split; [|by apply IH].
  intros ([path' g'] & Heq & (f' & Hf' & Hw)%list_elem_of_omap)%list_elem_of_fmap.
  simpl in Heq. subst path'. apply Hnotin.
  unfold write_of in Hw.
  destruct (outcome_of parse_date field_kind f' m) as [|q h|e] eqn:Ho'; simplify_eq.
  apply outcome_write in Ho as [Hp _], Ho' as [Hp' _].
  rewrite Hp in Hp'. apply output_file_inj in Hp'. rewrite Hp'.
  by apply list_elem_of_fmap_2.
Qed.

(** X11.  The order in which [dependency_logs] lists its logs does not matter to
    a run that returns, provided no two logs found share a crate name: from
    two worlds that differ in that order only, either run returns and they
    leave the same content under every path other than the directory's. *)
Theorem images_do_not_depend_on_listing_order w v names names' :
  fs w !! "dependency_logs" = Some (Dir names) →
  fs v !! "dependency_logs" = Some (Dir names') →
  names' ≡ₚ names →
  (∀ path, path ≠ "dependency_logs" → fs v !! path = fs w !! path) →
  NoDup (crate_name <$> Glob.found "dependency_logs" "_history.csv" w) →
  (main parse_date field_kind w).1 = Ok tt →
  (main parse_date field_kind v).1 = Ok tt
  ∧ ∀ path, path ≠ "dependency_logs" →
            fs (main parse_date field_kind v).2 !! path = fs (main parse_date field_kind w).2 !! path.
Proof.
  intros Hw Hv Hperm Hsame Hnd Hok.
  pose proof (found_logs_not_trend w) as Hl.
  pose proof (found_logs_not_trend v) as Hl'.
  destruct (main_run w) as [Hr Hm], (main_run v) as [Hr' Hm']. simpl in *.
  set (l := Glob.found "dependency_logs" "_history.csv" w) in *.
  set (l' := Glob.found "dependency_logs" "_history.csv" v) in *.
  assert (l' ≡ₚ l) as Hll.
  { unfold l, l', Glob.found. rewrite Hw, Hv.
    by apply Permutation_map, filter_Permutation. }
  assert (∀ f, f ∈ l → fs v !! f = fs w !! f
                       ∧ is_dir (fs v !! output_file (crate_name f))
                         = is_dir (fs w !! output_file (crate_name f))) as Hal.
  { intros f Hf. split.
    - apply Hsame. intros ->. unfold l, Glob.found in Hf. rewrite Hw in Hf.
      apply list_elem_of_In, in_map_iff in Hf as (name & Heq & _).
      discriminate Heq.
    - rewrite Hsame; [done|]. discriminate. }
  rewrite Hr in Hok.
  pose proof (run_ok_inv l (fs w) (fs w) Hl (alike_refl _ _) Hok) as Hnofail.
  destruct (run_ok l (fs w) (fs w) Hl (alike_refl _ _) Hnofail) as [_ Hws].
  destruct (run_ok l' (fs w) (fs v) Hl') as [Hok' Hws'].
  { intros f Hf. apply Hal. by rewrite <- Hll. }
  { intros f e Hf. apply Hnofail. by rewrite <- Hll. }
  rewrite Hr', Hm', Hm. split; [done|]. intros path Hpath.
  rewrite (run_writes l'), (run_writes l), Hws, Hws'.
  rewrite (put_all_perm _ (omap (write_of parse_date field_kind (fs w)) l)).
  - rewrite (put_all_union _ (fs v)), (put_all_union _ (fs w)).
    by rewrite !lookup_union, Hsame.
  - by rewrite Hll.
  - apply writes_keys_NoDup. by rewrite Hll.
Qed.

End RunFacts.

Lemma run_reads_files_only_witness :
  (main Iso.parse_date Iso.field_kind Cases.foo_world_later).1
  = (main Iso.parse_date Iso.field_kind Sample.foo_world).1
  ∧ fs (main Iso.parse_date Iso.field_kind Cases.foo_world_later).2
    = fs (main Iso.parse_date Iso.field_kind Sample.foo_world).2.
Proof.
  exact (run_reads_files_only Iso.parse_date Iso.field_kind
           Sample.foo_world Cases.foo_world_later eq_refl).
Defined.

Lemma second_run_changes_nothing_witness :
  let w1 := (main Iso.parse_date Iso.field_kind Sample.foo_world).2 in
  (main Iso.parse_date Iso.field_kind w1).1 = (main Iso.parse_date Iso.field_kind Sample.foo_world).1
  ∧ fs (main Iso.parse_date Iso.field_kind w1).2 = fs w1.
Proof.
  exact (second_run_changes_nothing Iso.parse_date Iso.field_kind Sample.foo_world _ eq_refl).
Defined.

Lemma missing_log_is_reported_and_skipped_witness :
  for_each (plot_crate_history Iso.parse_date Iso.field_kind)
           [Cases.gone_log; Sample.foo_log] Cases.gone_then_foo_world
  = for_each (plot_crate_history Iso.parse_date Iso.field_kind) [Sample.foo_log]
             (printed "No history file found: dependency_logs/gone_history.csv"
                      Cases.gone_then_foo_world).
Proof.
  exact (proj2 (missing_log_is_reported_and_skipped Iso.parse_date Iso.field_kind
                  Cases.gone_log [Sample.foo_log] Cases.gone_then_foo_world
                  eq_refl)).
Defined.

Lemma date_error_leaves_world_untouched_witness :
  plot_crate_history Iso.parse_date Iso.field_kind
                     Cases.formats_log Cases.formats_world
  = (Raise (DateParseError "01/02/2024"), Cases.formats_world).
Proof.
  apply (date_error_leaves_world_untouched Iso.parse_date Iso.field_kind
           Cases.formats_log Cases.formats_world Cases.formats_table _
           eq_refl eq_refl).
  right. exists [Text "2024-01-01"], "01/02/2024", [Text "soon"].
  repeat split. intros s Hs.
  apply elem_of_cons in Hs as [Hs|Hs];
    [injection Hs as ->; vm_compute; by eexists | by apply elem_of_nil in Hs].
Defined.


Lemma charts_of_distinct_logs_are_distinct_files_witness :
  output_file (crate_name Sample.a_log) ≠ output_file (crate_name Sample.b_log).
Proof.
  exact (charts_of_distinct_logs_are_distinct_files "a" "b"
           eq_refl eq_refl eq_refl eq_refl ltac:(done)).
Defined.

Lemma images_do_not_depend_on_listing_order_witness :
  (main Iso.parse_date Iso.field_kind Cases.ba_world).1 = Ok tt
  ∧ ∀ path, path ≠ "dependency_logs" →
            fs (main Iso.parse_date Iso.field_kind Cases.ba_world).2 !! path
            = fs (main Iso.parse_date Iso.field_kind Cases.ab_world).2 !! path.
Proof.
  apply (images_do_not_depend_on_listing_order Iso.parse_date Iso.field_kind
           Cases.ab_world Cases.ba_world
           ["a_history.csv"; "b_history.csv"] ["b_history.csv"; "a_history.csv"]
           eq_refl eq_refl).
  - apply perm_swap.
  - intros path Hne. unfold Cases.ba_world, Cases.ab_world,
      Sample.two_logs_world, Sample.world_of. simpl.
    by rewrite !(lookup_insert_ne _ "dependency_logs").
  - change (NoDup ["a"; "b"]).
    apply NoDup_cons. split; [|apply NoDup_singleton].
    intros H. apply list_elem_of_singleton in H. discriminate H.
  - by vm_compute.
Defined.
